(** * octocov: the [config] package

    A shallow embedding of [config/config.go] and the properties of its
    configuration pipeline: locating and loading the configuration file,
    environment expansion and defaulting ([Build]), the gate on storing a
    report ([DatastoreConfigReady]), validation of the datastore target
    ([BuildDatastoreConfig]), the acceptance check ([Accepptable]) and the
    badge colours.

    Conventions of the embedding:
    - a Go [string] is a [string] (a sequence of bytes);
    - a pointer to a struct is an [option]: [None] is the nil pointer;
    - a slice that the code compares with [nil] is an [option (list _)];
    - a method with a pointer receiver that assigns to fields returns the
      updated struct;
    - an [error] result is an [option error], [None] being [nil];
    - a run-time panic (nil dereference, failed type assertion) is the
      [Panic] outcome;
    - a [float64] is a primitive binary64 [float]. *)

From Stdlib Require Import ZArith Floats Ascii String DecimalString.
From stdpp Require Import base option list strings gmap.

Local Open Scope string_scope.
Local Set Warnings "-register-all,-inexact-float".

(** ** Go values shared by the whole package *)

(** An [error] value, identified with the text its [Error()] method yields. *)
Inductive error : Type :=
  | errorString (msg : string).

Definition Error (e : error) : string :=
  match e with errorString msg => msg end.

(** [errors.New] *)
Definition errors_New (msg : string) : error := errorString msg.

(** A call either returns or panics. *)
Inductive outcome (A : Type) : Type :=
  | Return (a : A)
  | Panic (msg : string).
Arguments Return {A} a.
Arguments Panic {A} msg.

(** A pair [(value, error)] as returned by library calls. *)
Inductive result (A : Type) : Type :=
  | Ok (a : A)
  | Err (e : error).
Arguments Ok {A} a.
Arguments Err {A} e.

Definition nil_dereference : string :=
  "runtime error: invalid memory address or nil pointer dereference".

(** ** Constants *)

Definition defaultBranch : string := "main".
Definition defaultReportsDir : string := "reports".
Definition defaultBadgesDir : string := "badges".

Definition green : string := "#97CA00".
Definition yellowgreen : string := "#A4A61D".
Definition yellow : string := "#DFB317".
Definition orange : string := "#FE7D37".
Definition red : string := "#E05D44".

Definition DefaultConfigFilePaths : list string := [".octocov.yml"; "octocov.yml"].

(** ** The configuration tree *)

Module ConfigCoverageBadge.
Record t : Type := mk { Path : string }.
End ConfigCoverageBadge.

Module ConfigCoverage.
Record t : Type := mk {
  Path : string;
  Badge : ConfigCoverageBadge.t;
  Acceptable : string
}.
Definition zero : t := mk "" (ConfigCoverageBadge.mk "") "".
Definition set_Path (v : string) (x : t) : t := mk v (Badge x) (Acceptable x).
Definition set_Badge_Path (v : string) (x : t) : t :=
  mk (Path x) (ConfigCoverageBadge.mk v) (Acceptable x).
End ConfigCoverage.

Module ConfigCodeToTestRatioBadge.
Record t : Type := mk { Path : string }.
End ConfigCodeToTestRatioBadge.

Module ConfigCodeToTestRatio.
Record t : Type := mk {
  Code : option (list string);
  Test : option (list string);
  Badge : ConfigCodeToTestRatioBadge.t
}.
End ConfigCodeToTestRatio.

Module ConfigDatastoreGithub.
Record t : Type := mk {
  Repository : string;
  Branch : string;
  Path : string
}.
Definition set_Branch (v : string) (x : t) : t := mk (Repository x) v (Path x).
Definition set_Path (v : string) (x : t) : t := mk (Repository x) (Branch x) v.
End ConfigDatastoreGithub.

Module ConfigDatastore.
Record t : Type := mk {
  If : string;
  Github : option ConfigDatastoreGithub.t
}.
Definition set_Github (v : option ConfigDatastoreGithub.t) (x : t) : t := mk (If x) v.
End ConfigDatastore.

Module ConfigCentral.
Record t : Type := mk {
  Enable : bool;
  Reports : string;
  Badges : string;
  Root : string
}.
End ConfigCentral.

Record Config : Type := mkConfig {
  Repository : string;
  Coverage : option ConfigCoverage.t;
  CodeToTestRatio : option ConfigCodeToTestRatio.t;
  Datastore : option ConfigDatastore.t;
  Central : option ConfigCentral.t;
  wd : string;
  path : string
}.

Definition set_Repository (v : string) (c : Config) : Config :=
  mkConfig v (Coverage c) (CodeToTestRatio c) (Datastore c) (Central c) (wd c) (path c).
Definition set_Coverage (v : option ConfigCoverage.t) (c : Config) : Config :=
  mkConfig (Repository c) v (CodeToTestRatio c) (Datastore c) (Central c) (wd c) (path c).
Definition set_CodeToTestRatio (v : option ConfigCodeToTestRatio.t) (c : Config) : Config :=
  mkConfig (Repository c) (Coverage c) v (Datastore c) (Central c) (wd c) (path c).
Definition set_Datastore (v : option ConfigDatastore.t) (c : Config) : Config :=
  mkConfig (Repository c) (Coverage c) (CodeToTestRatio c) v (Central c) (wd c) (path c).
Definition set_Central (v : option ConfigCentral.t) (c : Config) : Config :=
  mkConfig (Repository c) (Coverage c) (CodeToTestRatio c) (Datastore c) v (wd c) (path c).
Definition set_wd (v : string) (c : Config) : Config :=
  mkConfig (Repository c) (Coverage c) (CodeToTestRatio c) (Datastore c) (Central c) v (path c).
Definition set_path (v : string) (c : Config) : Config :=
  mkConfig (Repository c) (Coverage c) (CodeToTestRatio c) (Datastore c) (Central c) (wd c) v.

(** [New], given what [os.Getwd] returned. *)
Definition New (getwd : string) : Config :=
  mkConfig "" (Some ConfigCoverage.zero) None None None getwd "".

Definition Getwd (c : Config) : string := wd c.
Definition Setwd (p : string) (c : Config) : Config := set_wd p c.

Definition Loaded (c : Config) : bool := bool_decide (path c ≠ "").

(** ** The [strings] functions the package calls *)

(** [strings.Count(s, substr)] for a one-byte [substr]: the number of bytes
    of [s] equal to it. *)
Fixpoint strings_Count (s : string) (sep : ascii) : nat :=
  match s with
  | EmptyString => 0
  | String a s' => (if Ascii.eqb a sep then 1 else 0) + strings_Count s' sep
  end.

Definition strings_HasSuffix (s suffix : string) : bool :=
  let n := String.length s in
  let k := String.length suffix in
  (k <=? n)%nat && String.eqb (substring (n - k) k s) suffix.

(** [strings.TrimSuffix]: [s] without the trailing [suffix], or [s] itself. *)
Definition strings_TrimSuffix (s suffix : string) : string :=
  if strings_HasSuffix s suffix
  then substring 0 (String.length s - String.length suffix) s
  else s.

(** ** BuildDatastoreConfig *)

Definition default_report_path (repository : string) : string :=
  defaultReportsDir +:+ "/" +:+ repository +:+ "/report.json".

(** The two defaulting assignments on the github section. *)
Definition github_defaults (root_repository : string) (gh : ConfigDatastoreGithub.t)
  : ConfigDatastoreGithub.t :=
  let gh1 :=
    if decide (ConfigDatastoreGithub.Branch gh = "")
    then ConfigDatastoreGithub.set_Branch defaultBranch gh
    else gh in
  if decide (ConfigDatastoreGithub.Path gh1 = "" ∧ root_repository ≠ "")
  then ConfigDatastoreGithub.set_Path (default_report_path root_repository) gh1
  else gh1.

(** The checks that follow the defaulting, in source order. *)
Definition github_check (gh : ConfigDatastoreGithub.t) : option error :=
  if decide (ConfigDatastoreGithub.Repository gh = "")
  then Some (errors_New "datastore.github.repository not set")
  else if decide (strings_Count (ConfigDatastoreGithub.Repository gh) "/" ≠ 1)
  then Some (errors_New "datastore.github.repository should be 'owner/repo'")
  else if decide (ConfigDatastoreGithub.Branch gh = "")
  then Some (errors_New "datastore.github.branch not set")
  else if decide (ConfigDatastoreGithub.Path gh = "")
  then Some (errors_New "datastore.github.path not set")
  else None.

Definition BuildDatastoreConfig (c : Config) : outcome (Config * option error) :=
  match Datastore c with
  | None => Panic nil_dereference
  | Some ds =>
      match ConfigDatastore.Github ds with
      | None => Return (c, Some (errors_New "datastore.github not set"))
      | Some gh =>
          let gh' := github_defaults (Repository c) gh in
          let c' := set_Datastore (Some (ConfigDatastore.set_Github (Some gh') ds)) c in
          Return (c', github_check gh')
      end
  end.

(** The github section of a configuration, when both pointers are set. *)
Definition github_of (c : Config) : option ConfigDatastoreGithub.t :=
  ds ← Datastore c; ConfigDatastore.Github ds.

(** ** The process environment: [os.Getenv] and [os.ExpandEnv]

    The environment is a snapshot mapping names to values.  [Expand] follows
    the standard library's [os.Expand]: a left-to-right scan in which [$name]
    and [${name}] are replaced by [mapping name], a [$] that no name follows
    is kept, and malformed [${] / [${}] are dropped. *)

Definition os_Getenv (env : gmap string string) (key : string) : string :=
  default "" (env !! key).

Definition isShellSpecialVar (c : ascii) : bool :=
  bool_decide (c ∈ list_ascii_of_string "*#$@!?-0123456789").

Definition isAlphaNum (c : ascii) : bool :=
  let n := nat_of_ascii c in
  Ascii.eqb c "_"
  || ((48 <=? n)%nat && (n <=? 57)%nat)
  || ((97 <=? n)%nat && (n <=? 122)%nat)
  || ((65 <=? n)%nat && (n <=? 90)%nat).

(** Number of leading bytes of [s] that satisfy [p]. *)
Fixpoint span_length (p : ascii → bool) (s : string) : nat :=
  match s with
  | String a s' => if p a then S (span_length p s') else 0
  | EmptyString => 0
  end.

(** Index of the first byte of [s] equal to [c], if any. *)
Fixpoint index_byte (c : ascii) (s : string) : option nat :=
  match s with
  | EmptyString => None
  | String a s' => if Ascii.eqb a c then Some 0 else S <$> index_byte c s'
  end.

(** [getShellName s], for the non-empty text [s] that follows a [$]: the
    name and the number of bytes consumed. *)
Definition getShellName (s : string) : string * nat :=
  match s with
  | EmptyString => ("", 0)
  | String c0 rest =>
      if Ascii.eqb c0 "{" then
        let scan :=
          match index_byte "}" rest with
          | Some 0 => ("", 2)
          | Some k => (substring 0 k rest, k + 2)
          | None => ("", 1)
          end in
        match rest with
        | String c1 (String c2 _) =>
            if isShellSpecialVar c1 && Ascii.eqb c2 "}"
            then (String c1 "", 3)
            else scan
        | _ => scan
        end
      else if isShellSpecialVar c0 then (String c0 "", 1)
      else let i := span_length isAlphaNum s in (substring 0 i s, i)
  end.

(** The scan of [os.Expand]; [skip] counts the bytes still to be passed
    over after a reference (the loop's [j += w]). *)
Fixpoint expand_from (mapping : string → string) (skip : nat) (s : string) : string :=
  match s with
  | EmptyString => EmptyString
  | String c rest =>
      match skip with
      | S k => expand_from mapping k rest
      | O =>
          if Ascii.eqb c "$" && negb (String.eqb rest "") then
            let '(name, w) := getShellName rest in
            let piece :=
              if String.eqb name "" then
                if (0 <? w)%nat then "" else "$"
              else mapping name in
            piece +:+ expand_from mapping w rest
          else String c (expand_from mapping 0 rest)
      end
  end.

Definition os_Expand (s : string) (mapping : string → string) : string :=
  expand_from mapping 0 s.

Definition os_ExpandEnv (env : gmap string string) (s : string) : string :=
  os_Expand s (os_Getenv env).

(** ** Build *)

Definition expand_github (env : gmap string string) (gh : ConfigDatastoreGithub.t)
  : ConfigDatastoreGithub.t :=
  ConfigDatastoreGithub.mk
    (os_ExpandEnv env (ConfigDatastoreGithub.Repository gh))
    (os_ExpandEnv env (ConfigDatastoreGithub.Branch gh))
    (os_ExpandEnv env (ConfigDatastoreGithub.Path gh)).

Definition expand_central (env : gmap string string) (ce : ConfigCentral.t)
  : ConfigCentral.t :=
  ConfigCentral.mk
    (ConfigCentral.Enable ce)
    (os_ExpandEnv env (ConfigCentral.Reports ce))
    (os_ExpandEnv env (ConfigCentral.Badges ce))
    (os_ExpandEnv env (ConfigCentral.Root ce)).

(** A nil slice becomes the empty, non-nil slice. *)
Definition non_nil (l : option (list string)) : option (list string) :=
  match l with
  | None => Some []
  | Some _ => l
  end.

Definition Build (env : gmap string string) (c : Config) : Config :=
  let c := set_Repository (os_ExpandEnv env (Repository c)) c in
  let c :=
    if decide (Repository c = "")
    then set_Repository (os_Getenv env "GITHUB_REPOSITORY") c
    else c in
  let c :=
    match Datastore c with
    | Some ds =>
        match ConfigDatastore.Github ds with
        | Some gh =>
            set_Datastore
              (Some (ConfigDatastore.set_Github (Some (expand_github env gh)) ds)) c
        | None => c
        end
    | None => c
    end in
  let c :=
    match Coverage c with
    | Some cov =>
        set_Coverage
          (Some (ConfigCoverage.set_Badge_Path
                   (os_ExpandEnv env
                      (ConfigCoverageBadge.Path (ConfigCoverage.Badge cov))) cov)) c
    | None => c
    end in
  let c :=
    match CodeToTestRatio c with
    | Some r =>
        set_CodeToTestRatio
          (Some (ConfigCodeToTestRatio.mk
                   (non_nil (ConfigCodeToTestRatio.Code r))
                   (non_nil (ConfigCodeToTestRatio.Test r))
                   (ConfigCodeToTestRatio.Badge r))) c
    | None => c
    end in
  match Central c with
  | Some ce => set_Central (Some (expand_central env ce)) c
  | None => c
  end.

(** The strings that [Build] hands to [os.ExpandEnv], as they stand in [c]. *)
Definition expanded_fields (c : Config) : list string :=
  [Repository c]
  ++ match Datastore c with
     | Some ds =>
         match ConfigDatastore.Github ds with
         | Some gh =>
             [ConfigDatastoreGithub.Repository gh;
              ConfigDatastoreGithub.Branch gh;
              ConfigDatastoreGithub.Path gh]
         | None => []
         end
     | None => []
     end
  ++ match Coverage c with
     | Some cov => [ConfigCoverageBadge.Path (ConfigCoverage.Badge cov)]
     | None => []
     end
  ++ match Central c with
     | Some ce => [ConfigCentral.Root ce; ConfigCentral.Reports ce; ConfigCentral.Badges ce]
     | None => []
     end.

(** ** DatastoreConfigReady

    What the call reads from outside the configuration: the clock, the
    decoded GitHub event and the process environment.  The expression
    evaluator [expr.Eval] is an external collaborator, given as an
    interface; its values are dynamically typed. *)

Inductive value : Type :=
  | VNil
  | VBool (b : bool)
  | VInt (n : Z)
  | VFloat (f : float)
  | VString (s : string)
  | VList (l : list value)
  | VMap (m : list (string * value)).

(** [now.UTC()], through the accessors the code calls. *)
Record Time : Type := mkTime {
  Year : Z;
  Month : Z;
  Day : Z;
  Hour : Z;
  Weekday : Z
}.

(** The event that [runner.DecodeGitHubEvent] hands back; its error result
    is discarded by the caller. *)
Record GitHubEvent : Type := mkGitHubEvent {
  Name : string;
  Payload : value
}.

Record World : Type := mkWorld {
  now_UTC : Time;
  DecodeGitHubEvent : GitHubEvent;
  environ : gmap string string
}.

(** [env.EnvMap()] as an expression value. *)
Definition EnvMap (env : gmap string string) : value :=
  VMap ((λ kv : string * string, (kv.1, VString kv.2)) <$> map_to_list env).

Definition variables (w : World) : value :=
  let e := DecodeGitHubEvent w in
  let now := now_UTC w in
  VMap [ ("year", VInt (Year now));
         ("month", VInt (Month now));
         ("day", VInt (Day now));
         ("hour", VInt (Hour now));
         ("weekday", VInt (Weekday now));
         ("github", VMap [("event_name", VString (Name e)); ("event", Payload e)]);
         ("env", EnvMap (environ w)) ].

Class Expr : Type := {
  expr_Eval : string → value → result value
}.

Definition LF : string := String (ascii_of_nat 10) EmptyString.

(** [fmt.Sprintf("(%s) == true", cond)] *)
Definition wrap_condition (cond : string) : string :=
  "(" +:+ cond +:+ ") == true".

Definition skip_message (cond : string) : string :=
  "Skip storing the report: the condition in the `if` section is not met ("
  +:+ cond +:+ ")" +:+ LF.

(** The result pairs the decision with the text written to [os.Stderr]. *)
Definition DatastoreConfigReady `{Expr} (w : World) (c : Config) : outcome (bool * string) :=
  match Datastore c with
  | None => Return (false, "")
  | Some ds =>
      if decide (ConfigDatastore.If ds = "") then Return (true, "")
      else
        let cond := ConfigDatastore.If ds in
        match expr_Eval (wrap_condition cond) (variables w) with
        | Err err => Return (false, Error err +:+ LF)
        | Ok (VBool doOrNot) =>
            if negb doOrNot
            then Return (false, skip_message cond)
            else Return (true, "")
        | Ok _ => Panic "interface conversion: interface {} is not bool"
        end
  end.

(** ** Load

    The file system, [path/filepath] and the YAML decoder are external. *)

Record FileInfo : Type := mkFileInfo { IsDir : bool }.

Class Files : Type := {
  os_Stat : string → result FileInfo;
  ioutil_ReadFile : string → result string
}.

Class Filepath : Type := {
  filepath_Join : string → string → string;
  filepath_Dir : string → string;
  filepath_Clean : string → string
}.

(** [yaml.Unmarshal(buf, c)]: the decoded configuration and the error. *)
Class Yaml : Type := {
  yaml_Unmarshal : string → Config → Config * option error
}.

(** The decoder works by reflection and so cannot assign the unexported
    fields [wd] and [path]. *)
Definition unmarshal_into `{Yaml} (buf : string) (c : Config) : Config * option error :=
  let '(d, err) := yaml_Unmarshal buf c in
  (set_wd (wd c) (set_path (path c) d), err).

(** A candidate matches when it exists and is not a directory. *)
Definition matches `{Files} `{Filepath} (dir q : string) : Prop :=
  ∃ f, os_Stat (filepath_Join dir q) = Ok f ∧ IsDir f = false.

Definition duplicate_error (first second : string) : error :=
  errorString ("duplicate config file [" +:+ first +:+ ", " +:+ second +:+ "]").

(** The loop over [DefaultConfigFilePaths]; [p] is the candidate found so far. *)
Fixpoint find_default `{Files} `{Filepath} (dir : string) (candidates : list string)
    (p : string) : result string :=
  match candidates with
  | [] => Ok p
  | q :: rest =>
      match os_Stat (filepath_Join dir q) with
      | Ok f =>
          if negb (IsDir f) then
            if decide (p ≠ "") then Err (duplicate_error p q)
            else find_default dir rest q
          else find_default dir rest p
      | Err _ => find_default dir rest p
      end
  end.

(** The name [Load] goes on with: the explicit one, or the candidate found. *)
Definition resolve `{Files} `{Filepath} (p : string) (c : Config) : result string :=
  if decide (p = "") then find_default (wd c) DefaultConfigFilePaths p else Ok p.

Definition Load `{Files} `{Filepath} `{Yaml} (p : string) (c : Config)
  : outcome (Config * option error) :=
  match resolve p c with
  | Err e => Return (c, Some e)
  | Ok p =>
      if decide (p = "") then
        match Coverage c with
        | None => Panic nil_dereference
        | Some cov =>
            Return (set_Coverage (Some (ConfigCoverage.set_Path (wd c) cov)) c, None)
        end
      else
        let c := set_path (filepath_Join (wd c) p) c in
        match ioutil_ReadFile (filepath_Clean (path c)) with
        | Err e => Return (c, Some e)
        | Ok buf =>
            let '(c, err) := unmarshal_into buf c in
            match err with
            | Some e => Return (c, Some e)
            | None =>
                match Coverage c with
                | None => Panic nil_dereference
                | Some cov =>
                    if decide (ConfigCoverage.Path cov = "")
                    then Return (set_Coverage
                                   (Some (ConfigCoverage.set_Path (filepath_Dir (path c)) cov)) c,
                                 None)
                    else Return (c, None)
                end
            end
        end
  end.

Definition Root `{Filepath} (c : Config) : string :=
  if decide (path c ≠ "") then filepath_Dir (path c) else wd c.

(** ** Floating point: the [%.1f] verb, the acceptance check, the colours *)

(** Nearest integer to [n / d], ties to even, for [0 <= n] and [0 < d]. *)
Definition round_half_even (n d : Z) : Z :=
  let q := (n / d)%Z in
  let r := (n mod d)%Z in
  match (2 * r ?= d)%Z with
  | Lt => q
  | Gt => (q + 1)%Z
  | Eq => if Z.even q then q else (q + 1)%Z
  end.

(** The number of tenths nearest to [m * 2^e]. *)
Definition tenths (m : positive) (e : Z) : Z :=
  if (0 <=? e)%Z
  then (Z.pos m * 2 ^ e * 10)%Z
  else round_half_even (Z.pos m * 10) (2 ^ (- e)).

Definition decimal (n : Z) : string :=
  NilZero.string_of_uint (N.to_uint (Z.to_N n)).

Definition sign_text (negative : bool) : string :=
  if negative then "-" else "".

(** [fmt.Sprintf("%.1f", f)]: the exact value of [f] rounded to one decimal
    place, ties to even. *)
Definition Sprintf_1f (f : float) : string :=
  match Prim2SF f with
  | S754_nan => "NaN"
  | S754_infinity s => if s then "-Inf" else "+Inf"
  | S754_zero s => sign_text s +:+ "0.0"
  | S754_finite s m e =>
      let t := tenths m e in
      sign_text s +:+ decimal (t / 10) +:+ "." +:+ decimal (t mod 10)
  end.

(** [strconv.ParseFloat(s, 64)] is external. *)
Class Strconv : Type := {
  strconv_ParseFloat : string → result float
}.

(** The report, through the accessor the package reads. *)
Record Report : Type := mkReport { CoveragePercent : float }.

Definition below_error (actual accepted : float) : error :=
  errorString ("code coverage is " +:+ Sprintf_1f actual
               +:+ "%, which is below the accepted " +:+ Sprintf_1f accepted +:+ "%").

Definition Accepptable `{Strconv} (r : Report) (c : Config) : outcome (option error) :=
  match Coverage c with
  | None => Panic nil_dereference
  | Some cov =>
      if decide (ConfigCoverage.Acceptable cov = "") then Return None
      else
        match strconv_ParseFloat (strings_TrimSuffix (ConfigCoverage.Acceptable cov) "%") with
        | Err err => Return (Some err)
        | Ok a =>
            if (CoveragePercent r <? a)%float
            then Return (Some (below_error (CoveragePercent r) a))
            else Return None
        end
  end.

Definition CoverageColor (cover : float) : string :=
  if (80.0 <=? cover)%float then green
  else if (60.0 <=? cover)%float then yellowgreen
  else if (40.0 <=? cover)%float then yellow
  else if (20.0 <=? cover)%float then orange
  else red.

Definition CodeToTestRatioColor (ratio : float) : string :=
  if (1.2 <=? ratio)%float then green
  else if (1.0 <=? ratio)%float then yellowgreen
  else if (0.8 <=? ratio)%float then yellow
  else if (0.6 <=? ratio)%float then orange
  else red.

(** ** The remaining readiness predicates *)

Definition CodeToTestRatioReady (c : Config) : bool :=
  match CodeToTestRatio c with
  | None => false
  | Some r => negb (bool_decide (length (default [] (ConfigCodeToTestRatio.Test r)) = 0))
  end.

Definition CoverageBadgeConfigReady (c : Config) : outcome bool :=
  match Coverage c with
  | None => Panic nil_dereference
  | Some cov => Return (bool_decide (ConfigCoverageBadge.Path (ConfigCoverage.Badge cov) ≠ ""))
  end.

(** ** Sample configurations used in the examples below *)

Definition sample_github (repository branch p : string) : Config :=
  mkConfig "acme/widgets" (Some ConfigCoverage.zero) None
    (Some (ConfigDatastore.mk "" (Some (ConfigDatastoreGithub.mk repository branch p))))
    None "/work" "".

(** A datastore section without a github target. *)
Definition sample_no_github : Config :=
  mkConfig "acme/widgets" (Some ConfigCoverage.zero) None
    (Some (ConfigDatastore.mk "" None)) None "/work" "".

(** A configuration whose root repository is unset and whose github section
    is entirely empty. *)
Definition sample_unset : Config :=
  mkConfig "" (Some ConfigCoverage.zero) None
    (Some (ConfigDatastore.mk "" (Some (ConfigDatastoreGithub.mk "" "" ""))))
    None "/work" "".

(** As [sample_unset] but with a well-formed github.repository. *)
Definition sample_no_root : Config :=
  mkConfig "" (Some ConfigCoverage.zero) None
    (Some (ConfigDatastore.mk "" (Some (ConfigDatastoreGithub.mk "acme/reports" "" ""))))
    None "/work" "".

(** A configuration whose datastore section carries the gating expression
    [cond]. *)
Definition sample_if (cond : string) : Config :=
  mkConfig "acme/widgets" (Some ConfigCoverage.zero) None
    (Some (ConfigDatastore.mk cond None)) None "/work" "".

Definition sample_World : World :=
  mkWorld (mkTime 2021 3 14 9 0) (mkGitHubEvent "push" VNil) ∅.

(** A stand-in evaluator for the examples: it knows the two boolean
    constants, once wrapped, and reports anything else as a parse error. *)
Definition sample_Eval (program : string) (vars : value) : result value :=
  if String.eqb program "(true) == true" then Ok (VBool true)
  else if String.eqb program "(false) == true" then Ok (VBool false)
  else Err (errorString "unexpected token").

Definition sample_Expr : Expr := {| expr_Eval := sample_Eval |}.

(** What the expression library answers for the one program
    "(true) ? 1 : (2) == true": the conditional binds weaker than [==], so
    the program reads [true ? 1 : ((2) == true)] and evaluates, without an
    error, to the integer 1.  Any other program is reported as a parse
    error here. *)
Definition conditional_Eval (program : string) (vars : value) : result value :=
  if String.eqb program "(true) ? 1 : (2) == true" then Ok (VInt 1)
  else Err (errorString "unexpected token").

Definition conditional_Expr : Expr := {| expr_Eval := conditional_Eval |}.

(** An environment in which one variable refers to another. *)
Definition sample_env : gmap string string :=
  {[ "X" := "$Y"; "Y" := "z" ]}.

Definition sample_reference : Config :=
  mkConfig "$X" (Some ConfigCoverage.zero) None None None "/work" "".

Definition sample_plain_env : gmap string string :=
  {[ "GITHUB_REPOSITORY" := "acme/widgets"; "BADGES" := "docs/badges" ]}.

Definition sample_expandable : Config :=
  mkConfig "" (Some (ConfigCoverage.mk "" (ConfigCoverageBadge.mk "${BADGES}/coverage.svg") ""))
    (Some (ConfigCodeToTestRatio.mk None (Some ["**/*_test.go"]) (ConfigCodeToTestRatioBadge.mk "")))
    (Some (ConfigDatastore.mk "" (Some (ConfigDatastoreGithub.mk "acme/reports" "" ""))))
    (Some (ConfigCentral.mk true "reports" "$BADGES" ""))
    "/work" "".

(** Stand-ins for the file system, [path/filepath] and the decoder in the
    examples.  They agree with the real ones on the clean absolute paths
    used there: [Join] puts a separator between its arguments, [Dir] drops
    the last element, the files listed exist as regular files, and the
    document decoded is the empty one. *)
Fixpoint sample_Dir (p : string) : string :=
  match p with
  | EmptyString => EmptyString
  | String a rest =>
      if (0 <? strings_Count rest "/")%nat then String a (sample_Dir rest) else EmptyString
  end.

Definition sample_Filepath : Filepath :=
  {| filepath_Join := λ dir p, dir +:+ "/" +:+ p;
     filepath_Dir := sample_Dir;
     filepath_Clean := λ p, p |}.

Definition sample_Files (files : list string) : Files :=
  {| os_Stat := λ p,
       if bool_decide (p ∈ files) then Ok (mkFileInfo false)
       else if bool_decide (p = "/work") then Ok (mkFileInfo true)
       else Err (errorString ("stat " +:+ p +:+ ": no such file or directory"));
     ioutil_ReadFile := λ p,
       if bool_decide (p ∈ files) then Ok ""
       else Err (errorString ("open " +:+ p +:+ ": no such file or directory")) |}.

Definition sample_Yaml : Yaml :=
  {| yaml_Unmarshal := λ buf c, (c, None) |}.

(** A stand-in for [strconv.ParseFloat] in the examples: it knows the
    decimal "75" and reports anything else as a syntax error. *)
Definition sample_Strconv : Strconv :=
  {| strconv_ParseFloat := λ s,
       if String.eqb s "75" then Ok 75%float
       else Err (errorString
                   ("strconv.ParseFloat: parsing " +:+ s +:+ ": invalid syntax")) |}.

Definition sample_acceptable (acceptable : string) : Config :=
  mkConfig "acme/widgets" (Some (ConfigCoverage.mk "" (ConfigCoverageBadge.mk "") acceptable))
    None None None "/work" "".

(** ** Further readiness predicates and the order of the colours *)

(** [c.CodeToTestRatioReady() && c.CodeToTestRatio.Badge.Path != ""]: the
    right operand is evaluated only when the left one holds. *)
Definition CodeToTestRatioBadgeConfigReady (c : Config) : outcome bool :=
  if CodeToTestRatioReady c then
    match CodeToTestRatio c with
    | None => Panic nil_dereference
    | Some r =>
        Return (bool_decide
                  (ConfigCodeToTestRatioBadge.Path (ConfigCodeToTestRatio.Badge r) ≠ ""))
    end
  else Return false.

(** The five colours from worst to best; any other text ranks lowest. *)
Definition band_rank (colour : string) : nat :=
  if String.eqb colour green then 4
  else if String.eqb colour yellowgreen then 3
  else if String.eqb colour yellow then 2
  else if String.eqb colour orange then 1
  else 0.

(** A valid datastore target that still lacks branch and path. *)
Definition sample_target : Config :=
  mkConfig "acme/widgets" (Some ConfigCoverage.zero) None
    (Some (ConfigDatastore.mk "" (Some (ConfigDatastoreGithub.mk "acme/reports" "" ""))))
    None "/work" "".

(** A configuration that already names its coverage path. *)
Definition sample_covered (coverage_path : string) : Config :=
  mkConfig "acme/widgets"
    (Some (ConfigCoverage.mk coverage_path (ConfigCoverageBadge.mk "") ""))
    None None None "/work" "".

(** * Properties *)

(** ** BuildDatastoreConfig: defaulting and validation *)

Section BuildDatastoreConfig_facts.

Context (c : Config) (ds : ConfigDatastore.t).
Hypothesis Hds : Datastore c = Some ds.

Lemma BuildDatastoreConfig_no_github :
  ConfigDatastore.Github ds = None →
  BuildDatastoreConfig c = Return (c, Some (errors_New "datastore.github not set")).
Proof. intros Hgh. unfold BuildDatastoreConfig. by rewrite Hds, Hgh. Qed.

Lemma BuildDatastoreConfig_github (gh : ConfigDatastoreGithub.t) :
  ConfigDatastore.Github ds = Some gh →
  BuildDatastoreConfig c =
    Return (set_Datastore
              (Some (ConfigDatastore.set_Github (Some (github_defaults (Repository c) gh)) ds)) c,
            github_check (github_defaults (Repository c) gh)).
Proof. intros Hgh. unfold BuildDatastoreConfig. by rewrite Hds, Hgh. Qed.

End BuildDatastoreConfig_facts.

Lemma github_defaults_Repository (root : string) (gh : ConfigDatastoreGithub.t) :
  ConfigDatastoreGithub.Repository (github_defaults root gh)
  = ConfigDatastoreGithub.Repository gh.
Proof. unfold github_defaults. repeat case_decide; reflexivity. Qed.

Lemma github_defaults_Branch (root : string) (gh : ConfigDatastoreGithub.t) :
  ConfigDatastoreGithub.Branch (github_defaults root gh)
  = if decide (ConfigDatastoreGithub.Branch gh = "") then defaultBranch
    else ConfigDatastoreGithub.Branch gh.
Proof. unfold github_defaults. repeat case_decide; reflexivity. Qed.

Lemma github_defaults_Path (root : string) (gh : ConfigDatastoreGithub.t) :
  ConfigDatastoreGithub.Path (github_defaults root gh)
  = if decide (ConfigDatastoreGithub.Path gh = "" ∧ root ≠ "")
    then default_report_path root
    else ConfigDatastoreGithub.Path gh.
Proof.
  unfold github_defaults.
  destruct (decide (ConfigDatastoreGithub.Branch gh = "")); simpl;
    repeat case_decide; reflexivity.
Qed.

Lemma github_defaults_Branch_nonempty (root : string) (gh : ConfigDatastoreGithub.t) :
  ConfigDatastoreGithub.Branch (github_defaults root gh) ≠ "".
Proof. rewrite github_defaults_Branch. case_decide; [discriminate | assumption]. Qed.

Lemma github_check_repository_empty (gh : ConfigDatastoreGithub.t) :
  ConfigDatastoreGithub.Repository gh = "" →
  github_check gh = Some (errors_New "datastore.github.repository not set").
Proof. intros H. unfold github_check. by rewrite decide_True. Qed.

Lemma github_check_repository_shape (gh : ConfigDatastoreGithub.t) :
  ConfigDatastoreGithub.Repository gh ≠ "" →
  strings_Count (ConfigDatastoreGithub.Repository gh) "/" ≠ 1 →
  github_check gh = Some (errors_New "datastore.github.repository should be 'owner/repo'").
Proof.
  intros Hne Hcount. unfold github_check.
  rewrite decide_False by assumption. by rewrite decide_True.
Qed.

Lemma github_check_path_empty (gh : ConfigDatastoreGithub.t) :
  ConfigDatastoreGithub.Repository gh ≠ "" →
  strings_Count (ConfigDatastoreGithub.Repository gh) "/" = 1 →
  ConfigDatastoreGithub.Branch gh ≠ "" →
  ConfigDatastoreGithub.Path gh = "" →
  github_check gh = Some (errors_New "datastore.github.path not set").
Proof.
  intros Hrepo Hcount Hbranch Hpath. unfold github_check.
  rewrite decide_False by assumption.
  rewrite decide_False by (intros H; apply H; assumption).
  rewrite decide_False by assumption.
  by rewrite decide_True.
Qed.

Lemma github_check_is_error_of_path_empty (gh : ConfigDatastoreGithub.t) :
  ConfigDatastoreGithub.Path gh = "" → github_check gh ≠ None.
Proof. intros Hpath. unfold github_check. repeat case_decide; congruence. Qed.

(** C3. With a datastore section present, [BuildDatastoreConfig] reports the
    first violated check, in source order: a nil github section gives
    "datastore.github not set"; otherwise an empty github.repository gives
    "datastore.github.repository not set" whatever branch and path hold;
    otherwise a github.repository whose number of '/' is not one gives the
    "should be 'owner/repo'" error, as for "ownerrepo" and "a/b/c". *)
Theorem BuildDatastoreConfig_first_violation (c : Config) (ds : ConfigDatastore.t) :
  Datastore c = Some ds →
  (ConfigDatastore.Github ds = None →
     BuildDatastoreConfig c = Return (c, Some (errors_New "datastore.github not set")))
  ∧ (∀ gh, ConfigDatastore.Github ds = Some gh →
       ConfigDatastoreGithub.Repository gh = "" →
       ∃ c', BuildDatastoreConfig c
             = Return (c', Some (errors_New "datastore.github.repository not set")))
  ∧ (∀ gh, ConfigDatastore.Github ds = Some gh →
       ConfigDatastoreGithub.Repository gh ≠ "" →
       strings_Count (ConfigDatastoreGithub.Repository gh) "/" ≠ 1 →
       ∃ c', BuildDatastoreConfig c
             = Return (c', Some (errors_New "datastore.github.repository should be 'owner/repo'")))
  ∧ (∀ gh, ConfigDatastore.Github ds = Some gh →
       ConfigDatastoreGithub.Repository gh = "ownerrepo"
       ∨ ConfigDatastoreGithub.Repository gh = "a/b/c" →
       ∃ c', BuildDatastoreConfig c
             = Return (c', Some (errors_New "datastore.github.repository should be 'owner/repo'"))).
Proof.
  intros Hds. split; [|split; [|split]].
  - by apply BuildDatastoreConfig_no_github.
  - intros gh Hgh Hrepo. eexists.
    rewrite (BuildDatastoreConfig_github c ds Hds gh Hgh).
    rewrite github_check_repository_empty; [reflexivity|].
    by rewrite github_defaults_Repository.
  - intros gh Hgh Hrepo Hcount. eexists.
    rewrite (BuildDatastoreConfig_github c ds Hds gh Hgh).
    rewrite github_check_repository_shape; [reflexivity| |];
      by rewrite github_defaults_Repository.
  - intros gh Hgh Hrepo. eexists.
    rewrite (BuildDatastoreConfig_github c ds Hds gh Hgh).
    rewrite github_check_repository_shape; [reflexivity| |];
      rewrite github_defaults_Repository; destruct Hrepo as [-> | ->];
      vm_compute; congruence.
Qed.

Lemma BuildDatastoreConfig_first_violation_witness :
  BuildDatastoreConfig sample_no_github
  = Return (sample_no_github, Some (errors_New "datastore.github not set"))
  ∧ ∃ c', BuildDatastoreConfig (sample_github "a/b/c" "" "")
          = Return (c', Some (errors_New "datastore.github.repository should be 'owner/repo'")).
Proof.
  split.
  - apply (BuildDatastoreConfig_first_violation sample_no_github
             (ConfigDatastore.mk "" None) eq_refl).
    reflexivity.
  - pose proof (BuildDatastoreConfig_first_violation (sample_github "a/b/c" "" "")
                  (ConfigDatastore.mk "" (Some (ConfigDatastoreGithub.mk "a/b/c" "" "")))
                  eq_refl) as (_ & _ & _ & H4).
    apply (H4 (ConfigDatastoreGithub.mk "a/b/c" "" "") eq_refl).
    right; reflexivity.
Defined.

(** C4 as stated fails: with no root repository and an empty github section
    the call does fail, but on the github.repository check that precedes the
    path check. *)
Lemma BuildDatastoreConfig_unset_reports_repository :
  Repository sample_unset = ""
  ∧ github_of sample_unset = Some (ConfigDatastoreGithub.mk "" "" "")
  ∧ BuildDatastoreConfig sample_unset
    = Return (mkConfig "" (Some ConfigCoverage.zero) None
                (Some (ConfigDatastore.mk "" (Some (ConfigDatastoreGithub.mk "" "main" ""))))
                None "/work" "",
              Some (errors_New "datastore.github.repository not set"))
  ∧ errors_New "datastore.github.repository not set"
    ≠ errors_New "datastore.github.path not set".
Proof. repeat split; try reflexivity. discriminate. Qed.

(** C4 (amended). With a github section present, [BuildDatastoreConfig]
    returns the configuration in which an empty github.branch has become
    "main" and an empty github.path has become
    "reports/<repository>/report.json", built from the root repository, when
    that one is non-empty.  When the root repository is empty an empty path
    stays empty and the call fails: with "datastore.github.path not set" if
    github.repository is non-empty and holds exactly one '/', and with the
    github.repository error otherwise. *)
Theorem BuildDatastoreConfig_defaults (c : Config) (ds : ConfigDatastore.t)
    (gh : ConfigDatastoreGithub.t) :
  Datastore c = Some ds →
  ConfigDatastore.Github ds = Some gh →
  ∃ c' gh' err,
    BuildDatastoreConfig c = Return (c', err)
    ∧ github_of c' = Some gh'
    ∧ (ConfigDatastoreGithub.Branch gh = "" → ConfigDatastoreGithub.Branch gh' = "main")
    ∧ (ConfigDatastoreGithub.Branch gh ≠ "" →
         ConfigDatastoreGithub.Branch gh' = ConfigDatastoreGithub.Branch gh)
    ∧ (ConfigDatastoreGithub.Path gh = "" → Repository c ≠ "" →
         ConfigDatastoreGithub.Path gh'
         = "reports/" +:+ Repository c +:+ "/report.json")
    ∧ (ConfigDatastoreGithub.Path gh ≠ "" →
         ConfigDatastoreGithub.Path gh' = ConfigDatastoreGithub.Path gh)
    ∧ (ConfigDatastoreGithub.Path gh = "" → Repository c = "" →
         ConfigDatastoreGithub.Path gh' = ""
         ∧ err ≠ None
         ∧ (ConfigDatastoreGithub.Repository gh ≠ "" →
            strings_Count (ConfigDatastoreGithub.Repository gh) "/" = 1 →
            err = Some (errors_New "datastore.github.path not set"))
         ∧ (ConfigDatastoreGithub.Repository gh = "" →
            err = Some (errors_New "datastore.github.repository not set"))
         ∧ (ConfigDatastoreGithub.Repository gh ≠ "" →
            strings_Count (ConfigDatastoreGithub.Repository gh) "/" ≠ 1 →
            err = Some (errors_New "datastore.github.repository should be 'owner/repo'"))).
Proof.
  intros Hds Hgh.
  exists (set_Datastore
            (Some (ConfigDatastore.set_Github (Some (github_defaults (Repository c) gh)) ds)) c),
         (github_defaults (Repository c) gh),
         (github_check (github_defaults (Repository c) gh)).
  split; [by apply BuildDatastoreConfig_github|].
  split; [reflexivity|].
  rewrite github_defaults_Branch, github_defaults_Path.
  split; [intros ->; reflexivity|].
  split; [intros Hb; by rewrite decide_False|].
  split; [intros Hp Hr; by rewrite decide_True|].
  split; [intros Hp; rewrite decide_False; [reflexivity | intros [? _]; contradiction]|].
  intros Hp Hr.
  assert (ConfigDatastoreGithub.Path (github_defaults (Repository c) gh) = "") as Hp'.
  { rewrite github_defaults_Path, decide_False; [assumption | intros [_ ?]; contradiction]. }
  rewrite github_defaults_Path in Hp'.
  split; [exact Hp'|].
  rewrite <- github_defaults_Path in Hp'.
  split; [by apply github_check_is_error_of_path_empty|].
  split; [|split].
  - intros Hrepo Hcount. apply github_check_path_empty;
      rewrite ?github_defaults_Repository; try assumption.
    apply github_defaults_Branch_nonempty.
  - intros Hrepo. apply github_check_repository_empty.
    by rewrite github_defaults_Repository.
  - intros Hrepo Hcount. apply github_check_repository_shape;
      by rewrite github_defaults_Repository.
Qed.

Lemma BuildDatastoreConfig_defaults_witness :
  ∃ c' gh' err,
    BuildDatastoreConfig sample_no_root = Return (c', err)
    ∧ github_of c' = Some gh'
    ∧ ConfigDatastoreGithub.Branch gh' = "main"
    ∧ ConfigDatastoreGithub.Path gh' = ""
    ∧ err = Some (errors_New "datastore.github.path not set").
Proof.
  destruct (BuildDatastoreConfig_defaults sample_no_root
              (ConfigDatastore.mk "" (Some (ConfigDatastoreGithub.mk "acme/reports" "" "")))
              (ConfigDatastoreGithub.mk "acme/reports" "" "") eq_refl eq_refl)
    as (c' & gh' & err & Hrun & Hgh & Hb & _ & _ & _ & Hp).
  exists c', gh', err.
  destruct (Hp eq_refl eq_refl) as (Hp1 & _ & Hp2 & _).
  repeat split; try assumption.
  - apply Hb; reflexivity.
  - apply Hp2; [discriminate | reflexivity].
Defined.

Lemma default_report_path_nonempty (repository : string) :
  default_report_path repository ≠ "".
Proof. discriminate. Qed.

(** C10. [BuildDatastoreConfig] is not atomic on error.  When it fails on
    github.repository (empty, or not holding exactly one '/'), the
    configuration it leaves behind already carries the defaults: an empty
    github.branch has become "main", and an empty github.path has become the
    derived path when the root repository is non-empty; in either case the
    configuration differs from the one the call received. *)
Theorem BuildDatastoreConfig_not_atomic (c : Config) (ds : ConfigDatastore.t)
    (gh : ConfigDatastoreGithub.t) :
  Datastore c = Some ds →
  ConfigDatastore.Github ds = Some gh →
  ConfigDatastoreGithub.Repository gh = ""
  ∨ strings_Count (ConfigDatastoreGithub.Repository gh) "/" ≠ 1 →
  ∃ c' gh' e,
    BuildDatastoreConfig c = Return (c', Some e)
    ∧ (e = errors_New "datastore.github.repository not set"
       ∨ e = errors_New "datastore.github.repository should be 'owner/repo'")
    ∧ github_of c' = Some gh'
    ∧ (ConfigDatastoreGithub.Branch gh = "" → ConfigDatastoreGithub.Branch gh' = "main")
    ∧ (ConfigDatastoreGithub.Path gh = "" → Repository c ≠ "" →
         ConfigDatastoreGithub.Path gh' = "reports/" +:+ Repository c +:+ "/report.json")
    ∧ (ConfigDatastoreGithub.Branch gh = ""
       ∨ (ConfigDatastoreGithub.Path gh = "" ∧ Repository c ≠ "") → c' ≠ c).
Proof.
  intros Hds Hgh Hbad.
  set (gh' := github_defaults (Repository c) gh).
  set (c' := set_Datastore (Some (ConfigDatastore.set_Github (Some gh') ds)) c).
  assert (∃ e, github_check gh' = Some e
               ∧ (e = errors_New "datastore.github.repository not set"
                  ∨ e = errors_New "datastore.github.repository should be 'owner/repo'"))
    as (e & Hcheck & He).
  { destruct (decide (ConfigDatastoreGithub.Repository gh = "")) as [Hrepo | Hrepo].
    - eexists; split; [|left; reflexivity].
      apply github_check_repository_empty. subst gh'.
      by rewrite github_defaults_Repository.
    - destruct Hbad as [? | Hcount]; [contradiction|].
      eexists; split; [|right; reflexivity].
      apply github_check_repository_shape; subst gh';
        by rewrite github_defaults_Repository. }
  assert (ConfigDatastoreGithub.Branch gh = "" → ConfigDatastoreGithub.Branch gh' = "main")
    as Hbranch.
  { intros Hb. subst gh'. rewrite github_defaults_Branch. by rewrite decide_True. }
  assert (ConfigDatastoreGithub.Path gh = "" → Repository c ≠ "" →
          ConfigDatastoreGithub.Path gh' = "reports/" +:+ Repository c +:+ "/report.json")
    as Hpath.
  { intros Hp Hr. subst gh'. rewrite github_defaults_Path. by rewrite decide_True. }
  exists c', gh', e.
  split; [rewrite (BuildDatastoreConfig_github c ds Hds gh Hgh); fold gh'; fold c';
          by rewrite Hcheck|].
  split; [exact He|].
  split; [reflexivity|].
  split; [exact Hbranch|].
  split; [exact Hpath|].
  intros Hchanged Heq.
  assert (github_of c' = github_of c) as Hsame by (by rewrite Heq).
  assert (github_of c = Some gh) as Hold.
  { unfold github_of. rewrite Hds. simpl. exact Hgh. }
  rewrite Hold in Hsame. change (github_of c') with (Some gh') in Hsame.
  injection Hsame as Hsame.
  destruct Hchanged as [Hb | [Hp Hr]].
  - specialize (Hbranch Hb). rewrite Hsame, Hb in Hbranch. discriminate.
  - specialize (Hpath Hp Hr). rewrite Hsame, Hp in Hpath. discriminate.
Qed.

Lemma BuildDatastoreConfig_not_atomic_witness :
  ∃ c' gh' e,
    BuildDatastoreConfig (sample_github "ownerrepo" "" "") = Return (c', Some e)
    ∧ github_of c' = Some gh'
    ∧ ConfigDatastoreGithub.Branch gh' = "main"
    ∧ ConfigDatastoreGithub.Path gh' = "reports/acme/widgets/report.json"
    ∧ c' ≠ sample_github "ownerrepo" "" "".
Proof.
  destruct (BuildDatastoreConfig_not_atomic (sample_github "ownerrepo" "" "")
              (ConfigDatastore.mk "" (Some (ConfigDatastoreGithub.mk "ownerrepo" "" "")))
              (ConfigDatastoreGithub.mk "ownerrepo" "" "") eq_refl eq_refl)
    as (c' & gh' & e & Hrun & _ & Hgh & Hb & Hp & Hne).
  { right. vm_compute. discriminate. }
  exists c', gh', e.
  split; [exact Hrun|]. split; [exact Hgh|].
  split; [apply Hb; reflexivity|].
  split; [apply Hp; [reflexivity | discriminate]|].
  apply Hne. left; reflexivity.
Defined.

(** ** DatastoreConfigReady: the gate on storing the report *)

Section DatastoreConfigReady_facts.

Context `{Expr} (w : World) (c : Config) (ds : ConfigDatastore.t).
Hypothesis Hds : Datastore c = Some ds.

Lemma DatastoreConfigReady_empty :
  ConfigDatastore.If ds = "" → DatastoreConfigReady w c = Return (true, "").
Proof. intros Hif. unfold DatastoreConfigReady. rewrite Hds. by rewrite decide_True. Qed.

Lemma DatastoreConfigReady_error (err : error) :
  ConfigDatastore.If ds ≠ "" →
  expr_Eval (wrap_condition (ConfigDatastore.If ds)) (variables w) = Err err →
  DatastoreConfigReady w c = Return (false, Error err +:+ LF).
Proof.
  intros Hif Heval. unfold DatastoreConfigReady. rewrite Hds.
  rewrite decide_False by assumption. by rewrite Heval.
Qed.

Lemma DatastoreConfigReady_bool (b : bool) :
  ConfigDatastore.If ds ≠ "" →
  expr_Eval (wrap_condition (ConfigDatastore.If ds)) (variables w) = Ok (VBool b) →
  DatastoreConfigReady w c
  = Return (b, if b then "" else skip_message (ConfigDatastore.If ds)).
Proof.
  intros Hif Heval. unfold DatastoreConfigReady. rewrite Hds.
  rewrite decide_False by assumption. rewrite Heval. by destruct b.
Qed.

(** The type assertion [doOrNot.(bool)] is unchecked: a successful
    evaluation to anything but a boolean panics. *)
Lemma DatastoreConfigReady_not_bool (v : value) :
  ConfigDatastore.If ds ≠ "" →
  expr_Eval (wrap_condition (ConfigDatastore.If ds)) (variables w) = Ok v →
  (∀ b, v ≠ VBool b) →
  ∃ msg, DatastoreConfigReady w c = Panic msg.
Proof.
  intros Hif Heval Hv. unfold DatastoreConfigReady. rewrite Hds.
  rewrite decide_False by assumption. rewrite Heval.
  destruct v; try (eexists; reflexivity).
  exfalso. by eapply Hv.
Qed.

End DatastoreConfigReady_facts.

(** C2. With a datastore section whose [if] is the empty string,
    [DatastoreConfigReady] returns true and writes nothing to the error
    stream, whatever the evaluator and the surroundings are. *)
Theorem DatastoreConfigReady_empty_if `{Expr} (w : World) (c : Config)
    (ds : ConfigDatastore.t) :
  Datastore c = Some ds →
  ConfigDatastore.If ds = "" →
  DatastoreConfigReady w c = Return (true, "").
Proof. intros Hds Hif. by eapply DatastoreConfigReady_empty. Qed.

Lemma DatastoreConfigReady_empty_if_witness :
  @DatastoreConfigReady sample_Expr sample_World (sample_if "") = Return (true, "").
Proof.
  apply (@DatastoreConfigReady_empty_if sample_Expr sample_World (sample_if "")
           (ConfigDatastore.mk "" None)); reflexivity.
Defined.

(** The soft failure as far as it goes.  With a non-empty [if], and an
    evaluator whose successful result for the wrapped program
    "(<if>) == true" is a boolean, [DatastoreConfigReady]
    returns a boolean decision and does not panic; when the evaluator reports
    a parse or evaluation error the decision is false and the error text,
    followed by a newline, is what gets written to the error stream: the
    error itself is not handed to the caller.  A successful evaluation
    returns the boolean it produced, with the "Skip storing" diagnostic when
    that is false. *)
Theorem DatastoreConfigReady_soft_fail `{Expr} (w : World) (c : Config)
    (ds : ConfigDatastore.t) :
  Datastore c = Some ds →
  ConfigDatastore.If ds ≠ "" →
  (∀ v, expr_Eval (wrap_condition (ConfigDatastore.If ds)) (variables w) = Ok v →
        ∃ b, v = VBool b) →
  (∃ decision diagnostic, DatastoreConfigReady w c = Return (decision, diagnostic))
  ∧ (∀ err,
       expr_Eval (wrap_condition (ConfigDatastore.If ds)) (variables w) = Err err →
       DatastoreConfigReady w c = Return (false, Error err +:+ LF))
  ∧ (∀ b,
       expr_Eval (wrap_condition (ConfigDatastore.If ds)) (variables w) = Ok (VBool b) →
       DatastoreConfigReady w c
       = Return (b, if b then "" else skip_message (ConfigDatastore.If ds))).
Proof.
  intros Hds Hif Hbool.
  split; [|split].
  - destruct (expr_Eval (wrap_condition (ConfigDatastore.If ds)) (variables w))
      as [v | err] eqn:Heval.
    + destruct (Hbool v eq_refl) as [b ->].
      eexists _, _. by eapply DatastoreConfigReady_bool.
    + eexists _, _. by eapply DatastoreConfigReady_error.
  - intros err Heval. by eapply DatastoreConfigReady_error.
  - intros b Heval. by eapply DatastoreConfigReady_bool.
Qed.

Lemma DatastoreConfigReady_soft_fail_witness :
  @DatastoreConfigReady sample_Expr sample_World (sample_if "1 ==")
  = Return (false, "unexpected token" +:+ LF).
Proof.
  refine (proj1 (proj2 (@DatastoreConfigReady_soft_fail sample_Expr sample_World
                          (sample_if "1 ==") (ConfigDatastore.mk "1 ==" None)
                          eq_refl _ _))
            (errorString "unexpected token") eq_refl).
  - discriminate.
  - intros v Hv. vm_compute in Hv. discriminate.
Defined.

(** C1. The claim holds on the error path only.  The type assertion
    [doOrNot.(bool)] is unchecked, and wrapping the text as "(<if>) == true"
    does not make every successful result a boolean: whenever the evaluator
    succeeds with anything else [DatastoreConfigReady] panics.  The [if]
    text "true) ? 1 : (2" is wrapped to "(true) ? 1 : (2) == true", a
    conditional whose value is the integer 1, and the call panics with the
    interface conversion error where the claim promises the answer false. *)
Theorem DatastoreConfigReady_unchecked_assertion :
  (∀ (E : Expr) (w : World) (c : Config) (ds : ConfigDatastore.t) (v : value),
     Datastore c = Some ds →
     ConfigDatastore.If ds ≠ "" →
     expr_Eval (wrap_condition (ConfigDatastore.If ds)) (variables w) = Ok v →
     (∀ b, v ≠ VBool b) →
     ∃ msg, DatastoreConfigReady w c = Panic msg)
  ∧ wrap_condition "true) ? 1 : (2" = "(true) ? 1 : (2) == true"
  ∧ @DatastoreConfigReady conditional_Expr sample_World (sample_if "true) ? 1 : (2")
    = Panic "interface conversion: interface {} is not bool"
  ∧ (∀ decision diagnostic,
       @DatastoreConfigReady conditional_Expr sample_World (sample_if "true) ? 1 : (2")
       ≠ Return (decision, diagnostic)).
Proof.
  split; [|split; [reflexivity | split; [reflexivity|]]].
  - intros E w c ds v Hds Hif Heval Hv.
    by eapply DatastoreConfigReady_not_bool.
  - intros decision diagnostic Habs. vm_compute in Habs. discriminate Habs.
Qed.

(** ** Build: expansion and defaulting *)

Section Build_facts.

Context (env : gmap string string).

(** [Build] acts on each section separately. *)
Lemma Build_Repository (c : Config) :
  Repository (Build env c)
  = if decide (os_ExpandEnv env (Repository c) = "")
    then os_Getenv env "GITHUB_REPOSITORY"
    else os_ExpandEnv env (Repository c).
Proof.
  unfold Build. destruct c as [r cov ctr ds ce w p]; simpl.
  destruct (decide (os_ExpandEnv env r = "")); simpl;
    destruct ds as [[i [gh|]]|], cov, ctr, ce; reflexivity.
Qed.

Lemma Build_Datastore (c : Config) :
  Datastore (Build env c)
  = (λ ds, ConfigDatastore.mk (ConfigDatastore.If ds)
             (expand_github env <$> ConfigDatastore.Github ds)) <$> Datastore c.
Proof.
  unfold Build. destruct c as [r cov ctr ds ce w p]; simpl.
  destruct (decide (os_ExpandEnv env r = "")); simpl;
    destruct ds as [[i [gh|]]|], cov, ctr, ce; reflexivity.
Qed.

Lemma Build_Coverage (c : Config) :
  Coverage (Build env c)
  = (λ cov, ConfigCoverage.set_Badge_Path
              (os_ExpandEnv env (ConfigCoverageBadge.Path (ConfigCoverage.Badge cov))) cov)
    <$> Coverage c.
Proof.
  unfold Build. destruct c as [r cov ctr ds ce w p]; simpl.
  destruct (decide (os_ExpandEnv env r = "")); simpl;
    destruct ds as [[i [gh|]]|], cov, ctr, ce; reflexivity.
Qed.

Lemma Build_CodeToTestRatio (c : Config) :
  CodeToTestRatio (Build env c)
  = (λ r, ConfigCodeToTestRatio.mk
            (non_nil (ConfigCodeToTestRatio.Code r))
            (non_nil (ConfigCodeToTestRatio.Test r))
            (ConfigCodeToTestRatio.Badge r)) <$> CodeToTestRatio c.
Proof.
  unfold Build. destruct c as [r cov ctr ds ce w p]; simpl.
  destruct (decide (os_ExpandEnv env r = "")); simpl;
    destruct ds as [[i [gh|]]|], cov, ctr, ce; reflexivity.
Qed.

Lemma Build_Central (c : Config) :
  Central (Build env c) = expand_central env <$> Central c.
Proof.
  unfold Build. destruct c as [r cov ctr ds ce w p]; simpl.
  destruct (decide (os_ExpandEnv env r = "")); simpl;
    destruct ds as [[i [gh|]]|], cov, ctr, ce; reflexivity.
Qed.

Lemma Build_wd_path (c : Config) :
  wd (Build env c) = wd c ∧ path (Build env c) = path c.
Proof.
  unfold Build. destruct c as [r cov ctr ds ce w p]; simpl.
  destruct (decide (os_ExpandEnv env r = "")); simpl;
    destruct ds as [[i [gh|]]|], cov, ctr, ce; split; reflexivity.
Qed.

Lemma Config_eq (c d : Config) :
  Repository c = Repository d → Coverage c = Coverage d →
  CodeToTestRatio c = CodeToTestRatio d → Datastore c = Datastore d →
  Central c = Central d → wd c = wd d → path c = path d → c = d.
Proof. destruct c, d; simpl; intros; congruence. Qed.

Lemma non_nil_idempotent (l : option (list string)) : non_nil (non_nil l) = non_nil l.
Proof. by destruct l. Qed.

End Build_facts.

(** A string without [$] is left alone by expansion. *)
Lemma os_Expand_no_dollar (mapping : string → string) (s : string) :
  strings_Count s "$" = 0 → os_Expand s mapping = s.
Proof.
  unfold os_Expand. induction s as [|a s IH]; [reflexivity|].
  cbn [strings_Count expand_from]. destruct (Ascii.eqb a "$") eqn:Ha.
  - discriminate.
  - intros Hcount. cbn [andb]. f_equal. apply IH. exact Hcount.
Qed.

(** C9 as stated fails: when the value of a variable itself refers to a
    variable, the second call expands what the first one produced. *)
Lemma Build_twice_differs :
  Repository (Build sample_env sample_reference) = "$Y"
  ∧ Repository (Build sample_env (Build sample_env sample_reference)) = "z"
  ∧ Build sample_env (Build sample_env sample_reference)
    ≠ Build sample_env sample_reference.
Proof.
  assert (Repository (Build sample_env sample_reference) = "$Y") as H1
    by (vm_compute; reflexivity).
  assert (Repository (Build sample_env (Build sample_env sample_reference)) = "z") as H2
    by (vm_compute; reflexivity).
  repeat split; try assumption.
  intros Heq. rewrite Heq, H1 in H2. discriminate.
Qed.

(** C9 (amended). [Build] is a function of the configuration and the
    environment snapshot, and a second call under the same snapshot leaves
    every field as the first call left it, provided expansion does not
    change any of the strings the first call stored in the expanded fields
    (repository, datastore.github.repository/branch/path,
    coverage.badge.path, central.root/reports/badges); this is so in
    particular when none of them contains a [$]. *)
Theorem Build_idempotent_when_stable (env : gmap string string) (c : Config) :
  Forall (λ s, os_ExpandEnv env s = s) (expanded_fields (Build env c)) →
  Build env (Build env c) = Build env c.
Proof.
  unfold expanded_fields.
  rewrite !Forall_app, Forall_singleton.
  intros (Hrepo & Hds & Hcov & Hce).
  apply Config_eq.
  - rewrite (Build_Repository env (Build env c)), Hrepo.
    case_decide as Hempty; [|reflexivity].
    rewrite Build_Repository in Hempty |- *.
    case_decide; [reflexivity | contradiction].
  - rewrite (Build_Coverage env (Build env c)).
    revert Hcov. destruct (Coverage (Build env c)) as [cov|]; [|reflexivity].
    intros Hcov. rewrite Forall_singleton in Hcov. simpl. rewrite Hcov. by destruct cov as [? [?] ?].
  - rewrite (Build_CodeToTestRatio env (Build env c)), Build_CodeToTestRatio.
    destruct (CodeToTestRatio c) as [r|]; [|reflexivity].
    simpl. by rewrite !non_nil_idempotent.
  - rewrite (Build_Datastore env (Build env c)).
    revert Hds. destruct (Datastore (Build env c)) as [[i [gh|]]|]; try reflexivity.
    simpl. intros H123. rewrite !Forall_cons in H123. destruct H123 as (H1 & H2 & H3 & _).
    unfold expand_github. rewrite H1, H2, H3. by destruct gh.
  - rewrite (Build_Central env (Build env c)).
    revert Hce. destruct (Central (Build env c)) as [ce|]; [|reflexivity].
    simpl. intros H123. rewrite !Forall_cons in H123. destruct H123 as (H1 & H2 & H3 & _).
    unfold expand_central. rewrite H1, H2, H3. by destruct ce.
  - by rewrite !(proj1 (Build_wd_path env _)).
  - by rewrite !(proj2 (Build_wd_path env _)).
Qed.

Lemma Build_idempotent_without_dollar (env : gmap string string) (c : Config) :
  Forall (λ s, strings_Count s "$" = 0) (expanded_fields (Build env c)) →
  Build env (Build env c) = Build env c.
Proof.
  intros Hfree. apply Build_idempotent_when_stable.
  eapply Forall_impl; [exact Hfree|].
  intros s Hs. by apply os_Expand_no_dollar.
Qed.

Lemma Build_idempotent_when_stable_witness :
  Repository (Build sample_plain_env sample_expandable) = "acme/widgets"
  ∧ Build sample_plain_env (Build sample_plain_env sample_expandable)
    = Build sample_plain_env sample_expandable.
Proof.
  split; [vm_compute; reflexivity|].
  apply (Build_idempotent_when_stable sample_plain_env sample_expandable).
  vm_compute. repeat constructor.
Defined.

(** ** Load: locating and reading the configuration file *)

Section Load_facts.

Context `{Files} `{Filepath} `{Yaml}.

Lemma find_default_match (dir q p : string) (rest : list string) :
  matches dir q →
  find_default dir (q :: rest) p
  = if decide (p ≠ "") then Err (duplicate_error p q) else find_default dir rest q.
Proof. intros (f & Hstat & Hdir). cbn [find_default]. by rewrite Hstat, Hdir. Qed.

Lemma find_default_no_match (dir q p : string) (rest : list string) :
  ¬ matches dir q →
  find_default dir (q :: rest) p = find_default dir rest p.
Proof.
  intros Hno. cbn [find_default].
  destruct (os_Stat (filepath_Join dir q)) as [f|e] eqn:Hstat; [|reflexivity].
  destruct (IsDir f) eqn:Hdir; [reflexivity|].
  exfalso. apply Hno. by exists f.
Qed.


(** The file was found: what [Load] does from the resolved name on. *)
Lemma Load_resolved (p p' buf : string) (c d : Config) (cov : ConfigCoverage.t) :
  resolve p c = Ok p' →
  p' ≠ "" →
  ioutil_ReadFile (filepath_Clean (filepath_Join (wd c) p')) = Ok buf →
  unmarshal_into buf (set_path (filepath_Join (wd c) p') c) = (d, None) →
  Coverage d = Some cov →
  Load p c
  = Return (if decide (ConfigCoverage.Path cov = "")
            then set_Coverage
                   (Some (ConfigCoverage.set_Path (filepath_Dir (path d)) cov)) d
            else d,
            None).
Proof.
  intros Hres Hp' Hread Hdec Hcov. unfold Load. rewrite Hres.
  rewrite (decide_False (P := p' = "")) by assumption. cbn [path set_path].
  rewrite Hread, Hdec, Hcov.
  destruct (decide (ConfigCoverage.Path cov = "")); reflexivity.
Qed.

Lemma unmarshal_into_path (buf : string) (c d : Config) (err : option error) :
  unmarshal_into buf c = (d, err) → path d = path c ∧ wd d = wd c.
Proof.
  unfold unmarshal_into. destruct (yaml_Unmarshal buf c) as [d' err'].
  intros [= <- _]. split; reflexivity.
Qed.

End Load_facts.

(** C7. With no explicit path, when both candidate names, .octocov.yml and
    octocov.yml, exist as regular files under the working directory, [Load]
    returns the error "duplicate config file [.octocov.yml, octocov.yml]" and
    leaves the configuration as it was: neither file is chosen. *)
Theorem Load_duplicate `{Files} `{Filepath} `{Yaml} (c : Config) :
  matches (wd c) ".octocov.yml" →
  matches (wd c) "octocov.yml" →
  Load "" c
  = Return (c, Some (errorString "duplicate config file [.octocov.yml, octocov.yml]")).
Proof.
  intros Hfirst Hsecond. unfold Load, resolve, DefaultConfigFilePaths.
  rewrite (decide_True (P := "" = "")) by reflexivity.
  rewrite find_default_match by assumption.
  rewrite (decide_False (P := "" ≠ "")) by (intros Hne; by apply Hne).
  rewrite find_default_match by assumption.
  rewrite (decide_True (P := ".octocov.yml" ≠ "")) by discriminate.
  reflexivity.
Qed.

Lemma Load_duplicate_witness :
  @Load (sample_Files ["/work/.octocov.yml"; "/work/octocov.yml"]) sample_Filepath
    sample_Yaml "" (New "/work")
  = Return (New "/work",
            Some (errorString "duplicate config file [.octocov.yml, octocov.yml]")).
Proof.
  apply (@Load_duplicate (sample_Files ["/work/.octocov.yml"; "/work/octocov.yml"])
           sample_Filepath sample_Yaml (New "/work"));
    exists (mkFileInfo false); split; reflexivity.
Defined.



(** ** Floating-point comparisons *)



(** A value at or above a bound is at or above every lower bound. *)
Lemma leb_chain (hi lo x : float) :
  (lo <=? hi)%float = true → (hi <=? x)%float = true → (lo <=? x)%float = true.
Proof.
  rewrite !leb_spec. unfold SFleb.
  destruct (Prim2SF lo) as [s1|s1| |s1 m1 e1], (Prim2SF hi) as [s2|s2| |s2 m2 e2],
           (Prim2SF x) as [s3|s3| |s3 m3 e3]; simpl;
    try destruct s1; try destruct s2; try destruct s3; simpl; try congruence.
  all: change (Pos.compare_cont Eq ?a ?b) with (Pos.compare a b).
  all: destruct (Z.compare_spec e1 e2), (Z.compare_spec e2 e3), (Z.compare_spec e1 e3);
    simpl; try congruence; try lia.
  all: destruct (Pos.compare_spec m1 m2), (Pos.compare_spec m2 m3), (Pos.compare_spec m1 m3);
    simpl; try congruence; try lia.
Qed.

(** ** The badge colours *)

Lemma colours_distinct :
  green ≠ yellowgreen ∧ green ≠ yellow ∧ green ≠ orange ∧ green ≠ red
  ∧ yellowgreen ≠ yellow ∧ yellowgreen ≠ orange ∧ yellowgreen ≠ red
  ∧ yellow ≠ orange ∧ yellow ≠ red ∧ orange ≠ red.
Proof. repeat split; discriminate. Qed.

(** A cascade over four descending bounds selects the band of the highest
    bound reached. *)
Lemma cascade_bands (b1 b2 b3 b4 x : float) :
  (b2 <=? b1)%float = true → (b3 <=? b2)%float = true → (b4 <=? b3)%float = true →
  let colour :=
    if (b1 <=? x)%float then green
    else if (b2 <=? x)%float then yellowgreen
    else if (b3 <=? x)%float then yellow
    else if (b4 <=? x)%float then orange
    else red in
  (colour = green ↔ (b1 <=? x)%float = true)
  ∧ (colour = yellowgreen ↔ (b2 <=? x)%float = true ∧ (b1 <=? x)%float = false)
  ∧ (colour = yellow ↔ (b3 <=? x)%float = true ∧ (b2 <=? x)%float = false)
  ∧ (colour = orange ↔ (b4 <=? x)%float = true ∧ (b3 <=? x)%float = false)
  ∧ (colour = red ↔ (b4 <=? x)%float = false).
Proof.
  intros H21 H32 H43 colour. subst colour.
  pose proof (leb_chain b1 b2 x H21) as C1.
  pose proof (leb_chain b2 b3 x H32) as C2.
  pose proof (leb_chain b3 b4 x H43) as C3.
  destruct colours_distinct as (? & ? & ? & ? & ? & ? & ? & ? & ? & ?).
  destruct (b1 <=? x)%float, (b2 <=? x)%float, (b3 <=? x)%float, (b4 <=? x)%float;
    try (specialize (C1 eq_refl)); try (specialize (C2 eq_refl));
    try (specialize (C3 eq_refl)); try discriminate;
    repeat split; intros; try congruence; try (destruct_and?; congruence).
Qed.

(** C5. [CoverageColor] and [CodeToTestRatioColor] are functions into the
    five colours, with inclusive lower bounds, the highest bound reached
    deciding: percentages at or above 80 are green, from 60 yellowgreen,
    from 40 yellow, from 20 orange, and red otherwise; ratios at or above
    1.2 are green, from 1.0 yellowgreen, from 0.8 yellow, from 0.6 orange,
    and red otherwise.  Each bound itself belongs to the upper band. *)
Theorem colour_bands :
  (∀ cover : float,
     (CoverageColor cover = green ↔ (80 <=? cover)%float = true)
     ∧ (CoverageColor cover = yellowgreen
        ↔ (60 <=? cover)%float = true ∧ (80 <=? cover)%float = false)
     ∧ (CoverageColor cover = yellow
        ↔ (40 <=? cover)%float = true ∧ (60 <=? cover)%float = false)
     ∧ (CoverageColor cover = orange
        ↔ (20 <=? cover)%float = true ∧ (40 <=? cover)%float = false)
     ∧ (CoverageColor cover = red ↔ (20 <=? cover)%float = false))
  ∧ (∀ ratio : float,
       (CodeToTestRatioColor ratio = green ↔ (1.2 <=? ratio)%float = true)
       ∧ (CodeToTestRatioColor ratio = yellowgreen
          ↔ (1.0 <=? ratio)%float = true ∧ (1.2 <=? ratio)%float = false)
       ∧ (CodeToTestRatioColor ratio = yellow
          ↔ (0.8 <=? ratio)%float = true ∧ (1.0 <=? ratio)%float = false)
       ∧ (CodeToTestRatioColor ratio = orange
          ↔ (0.6 <=? ratio)%float = true ∧ (0.8 <=? ratio)%float = false)
       ∧ (CodeToTestRatioColor ratio = red ↔ (0.6 <=? ratio)%float = false))
  ∧ (CoverageColor 80 = green ∧ CoverageColor 60 = yellowgreen
     ∧ CoverageColor 40 = yellow ∧ CoverageColor 20 = orange)
  ∧ (CodeToTestRatioColor 1.2 = green ∧ CodeToTestRatioColor 1.0 = yellowgreen
     ∧ CodeToTestRatioColor 0.8 = yellow ∧ CodeToTestRatioColor 0.6 = orange).
Proof.
  split; [|split; [|split]].
  - intros cover. apply (cascade_bands 80 60 40 20 cover); reflexivity.
  - intros ratio. apply (cascade_bands 1.2 1.0 0.8 0.6 ratio); reflexivity.
  - repeat split; reflexivity.
  - repeat split; reflexivity.
Qed.

(** ** Accepptable: the acceptance check *)

Section Accepptable_facts.

Context `{Strconv} (r : Report) (c : Config) (cov : ConfigCoverage.t).
Hypothesis Hcov : Coverage c = Some cov.

Lemma Accepptable_unset :
  ConfigCoverage.Acceptable cov = "" → Accepptable r c = Return None.
Proof. intros Hacc. unfold Accepptable. rewrite Hcov. by rewrite decide_True. Qed.

Lemma Accepptable_parsed (a : float) :
  ConfigCoverage.Acceptable cov ≠ "" →
  strconv_ParseFloat (strings_TrimSuffix (ConfigCoverage.Acceptable cov) "%") = Ok a →
  Accepptable r c
  = Return (if (CoveragePercent r <? a)%float
            then Some (below_error (CoveragePercent r) a)
            else None).
Proof.
  intros Hacc Hparse. unfold Accepptable. rewrite Hcov.
  rewrite decide_False by assumption. rewrite Hparse.
  by destruct (CoveragePercent r <? a)%float.
Qed.


End Accepptable_facts.





(** * Further properties *)

(** ** BuildDatastoreConfig: outcome, invariant, idempotence, frame *)

Lemma BuildDatastoreConfig_inv (c c' : Config) (e : option error) :
  BuildDatastoreConfig c = Return (c', e) →
  ∃ ds, Datastore c = Some ds
        ∧ ((ConfigDatastore.Github ds = None ∧ c' = c
            ∧ e = Some (errors_New "datastore.github not set"))
           ∨ (∃ gh, ConfigDatastore.Github ds = Some gh
                    ∧ c' = set_Datastore
                             (Some (ConfigDatastore.set_Github
                                      (Some (github_defaults (Repository c) gh)) ds)) c
                    ∧ e = github_check (github_defaults (Repository c) gh))).
Proof.
  unfold BuildDatastoreConfig.
  destruct (Datastore c) as [ds|]; [|discriminate].
  destruct (ConfigDatastore.Github ds) as [gh|] eqn:Hgh; intros [= <- <-];
    exists ds; split; try reflexivity.
  - right. by exists gh.
  - by left.
Qed.

Lemma github_check_None_iff (gh : ConfigDatastoreGithub.t) :
  github_check gh = None
  ↔ strings_Count (ConfigDatastoreGithub.Repository gh) "/" = 1
    ∧ ConfigDatastoreGithub.Branch gh ≠ ""
    ∧ ConfigDatastoreGithub.Path gh ≠ "".
Proof.
  unfold github_check. split.
  - repeat case_decide; try discriminate. intros _.
    repeat split; try assumption; try (apply dec_stable; assumption).
  - intros (Hcount & Hbranch & Hpath).
    assert (ConfigDatastoreGithub.Repository gh ≠ "") as Hrepo.
    { intros Hempty. rewrite Hempty in Hcount. discriminate. }
    rewrite decide_False by assumption.
    rewrite decide_False by (intros Hne; by apply Hne).
    rewrite decide_False by assumption.
    by rewrite decide_False.
Qed.

Lemma github_defaults_idempotent (root : string) (gh : ConfigDatastoreGithub.t) :
  github_defaults root (github_defaults root gh) = github_defaults root gh.
Proof.
  destruct gh as [repo branch p]. unfold github_defaults. simpl.
  destruct (decide (branch = "")) as [-> | Hb];
    destruct (decide (p = "" ∧ root ≠ "")) as [[-> Hr] | Hno]; simpl;
    repeat case_decide; simpl in *; try reflexivity;
    try discriminate; try contradiction; destruct_and?; try discriminate;
    try contradiction.
Qed.

(** X1. [BuildDatastoreConfig] returns without error exactly when the
    datastore section has a github target whose repository holds exactly one
    '/' and whose path is given or can be derived from a non-empty root
    repository. *)
Theorem BuildDatastoreConfig_succeeds_iff (c : Config) :
  (∃ c', BuildDatastoreConfig c = Return (c', None))
  ↔ ∃ ds gh,
      Datastore c = Some ds
      ∧ ConfigDatastore.Github ds = Some gh
      ∧ strings_Count (ConfigDatastoreGithub.Repository gh) "/" = 1
      ∧ (ConfigDatastoreGithub.Path gh ≠ "" ∨ Repository c ≠ "").
Proof.
  split.
  - intros (c' & Hrun).
    destruct (BuildDatastoreConfig_inv _ _ _ Hrun)
      as (ds & Hds & [(_ & _ & Habs) | (gh & Hgh & _ & Hcheck)]); [discriminate|].
    exists ds, gh. split; [exact Hds|]. split; [exact Hgh|].
    symmetry in Hcheck. apply github_check_None_iff in Hcheck as (Hcount & _ & Hpath).
    rewrite github_defaults_Repository in Hcount. split; [exact Hcount|].
    rewrite github_defaults_Path in Hpath.
    destruct (decide (ConfigDatastoreGithub.Path gh = "" ∧ Repository c ≠ ""))
      as [[_ Hr] | _]; [by right | by left].
  - intros (ds & gh & Hds & Hgh & Hcount & Hpath).
    eexists. rewrite (BuildDatastoreConfig_github c ds Hds gh Hgh). f_equal. f_equal.
    apply github_check_None_iff.
    rewrite github_defaults_Repository, github_defaults_Path.
    split; [exact Hcount|]. split; [apply github_defaults_Branch_nonempty|].
    case_decide as Hd; [apply default_report_path_nonempty|].
    destruct Hpath as [Hp | Hr]; [exact Hp|].
    intros Hp. apply Hd. by split.
Qed.

(** X2. After a call that returns no error the github target satisfies the
    validated form: its repository holds exactly one '/', and its branch and
    path are non-empty. *)
Theorem BuildDatastoreConfig_validated (c c' : Config) :
  BuildDatastoreConfig c = Return (c', None) →
  ∃ gh', github_of c' = Some gh'
         ∧ strings_Count (ConfigDatastoreGithub.Repository gh') "/" = 1
         ∧ ConfigDatastoreGithub.Branch gh' ≠ ""
         ∧ ConfigDatastoreGithub.Path gh' ≠ "".
Proof.
  intros Hrun.
  destruct (BuildDatastoreConfig_inv _ _ _ Hrun)
    as (ds & Hds & [(_ & _ & Habs) | (gh & Hgh & -> & Hcheck)]); [discriminate|].
  exists (github_defaults (Repository c) gh). split; [reflexivity|].
  by apply github_check_None_iff.
Qed.

Lemma BuildDatastoreConfig_validated_witness :
  ∃ gh', github_of (set_Datastore
                      (Some (ConfigDatastore.mk ""
                               (Some (ConfigDatastoreGithub.mk "acme/reports" "main"
                                        "reports/acme/widgets/report.json"))))
                      sample_target) = Some gh'
         ∧ strings_Count (ConfigDatastoreGithub.Repository gh') "/" = 1
         ∧ ConfigDatastoreGithub.Branch gh' ≠ ""
         ∧ ConfigDatastoreGithub.Path gh' ≠ "".
Proof.
  apply (BuildDatastoreConfig_validated sample_target). reflexivity.
Defined.

(** X3. [BuildDatastoreConfig] is idempotent: called again on the
    configuration it returned, it returns that configuration and the same
    error (or none) again. *)
Theorem BuildDatastoreConfig_idempotent (c c' : Config) (e : option error) :
  BuildDatastoreConfig c = Return (c', e) →
  BuildDatastoreConfig c' = Return (c', e).
Proof.
  intros Hrun.
  destruct (BuildDatastoreConfig_inv _ _ _ Hrun)
    as (ds & Hds & [(Hgh & -> & ->) | (gh & Hgh & -> & ->)]).
  - by apply (BuildDatastoreConfig_no_github c ds).
  - set (gh' := github_defaults (Repository c) gh).
    set (c1 := set_Datastore (Some (ConfigDatastore.set_Github (Some gh') ds)) c).
    rewrite (BuildDatastoreConfig_github c1 (ConfigDatastore.set_Github (Some gh') ds)
               eq_refl gh' eq_refl).
    change (Repository c1) with (Repository c).
    subst gh'. rewrite github_defaults_idempotent. reflexivity.
Qed.

Lemma BuildDatastoreConfig_idempotent_witness :
  ∃ c', BuildDatastoreConfig sample_target = Return (c', None)
        ∧ BuildDatastoreConfig c' = Return (c', None).
Proof.
  eexists. split; [reflexivity|].
  apply (BuildDatastoreConfig_idempotent sample_target). reflexivity.
Defined.

(** X4. The error "datastore.github.branch not set" is never returned: the
    branch check comes after the branch has been defaulted. *)
Theorem BuildDatastoreConfig_never_branch_error (c c' : Config) :
  BuildDatastoreConfig c
  ≠ Return (c', Some (errors_New "datastore.github.branch not set")).
Proof.
  intros Hrun.
  destruct (BuildDatastoreConfig_inv _ _ _ Hrun)
    as (ds & Hds & [(_ & _ & Habs) | (gh & Hgh & _ & Hcheck)]); [discriminate|].
  pose proof (github_defaults_Branch_nonempty (Repository c) gh) as Hbranch.
  revert Hcheck. unfold github_check.
  repeat case_decide; try discriminate. contradiction.
Qed.

(** X5. Whatever it returns, [BuildDatastoreConfig] changes nothing but the
    branch and the path of the github target: the root repository, the
    coverage, ratio and central sections, the working directory, the config
    path, the [if] expression and the github repository stay as they were. *)
Theorem BuildDatastoreConfig_frame (c c' : Config) (e : option error) :
  BuildDatastoreConfig c = Return (c', e) →
  Repository c' = Repository c
  ∧ Coverage c' = Coverage c
  ∧ CodeToTestRatio c' = CodeToTestRatio c
  ∧ Central c' = Central c
  ∧ wd c' = wd c
  ∧ path c' = path c
  ∧ ConfigDatastore.If <$> Datastore c' = ConfigDatastore.If <$> Datastore c
  ∧ ConfigDatastoreGithub.Repository <$> github_of c'
    = ConfigDatastoreGithub.Repository <$> github_of c.
Proof.
  intros Hrun.
  destruct (BuildDatastoreConfig_inv _ _ _ Hrun)
    as (ds & Hds & [(_ & -> & _) | (gh & Hgh & -> & _)]).
  - repeat split; reflexivity.
  - repeat split; try reflexivity.
    + cbn. by rewrite Hds.
    + unfold github_of. cbn. rewrite Hds. cbn. rewrite Hgh. cbn.
      by rewrite github_defaults_Repository.
Qed.

Lemma BuildDatastoreConfig_frame_witness :
  ∃ c', BuildDatastoreConfig sample_unset
        = Return (c', Some (errors_New "datastore.github.repository not set"))
        ∧ Repository c' = Repository sample_unset
        ∧ Coverage c' = Coverage sample_unset
        ∧ wd c' = wd sample_unset.
Proof.
  eexists. split; [reflexivity|].
  destruct (BuildDatastoreConfig_frame sample_unset _ _ eq_refl)
    as (Hrepo & Hcov & _ & _ & Hwd & _).
  exact (conj Hrepo (conj Hcov Hwd)).
Defined.

(** X6. The error "datastore.github.path not set" is returned exactly when
    the github repository holds exactly one '/', the github path is empty
    and the root repository is empty too; with a root repository the call
    never fails on the path. *)
Theorem BuildDatastoreConfig_path_error_iff (c : Config) :
  (∃ c', BuildDatastoreConfig c
         = Return (c', Some (errors_New "datastore.github.path not set")))
  ↔ ∃ ds gh,
      Datastore c = Some ds
      ∧ ConfigDatastore.Github ds = Some gh
      ∧ strings_Count (ConfigDatastoreGithub.Repository gh) "/" = 1
      ∧ ConfigDatastoreGithub.Path gh = ""
      ∧ Repository c = "".
Proof.
  split.
  - intros (c' & Hrun).
    destruct (BuildDatastoreConfig_inv _ _ _ Hrun)
      as (ds & Hds & [(_ & _ & Habs) | (gh & Hgh & _ & Hcheck)]); [discriminate|].
    exists ds, gh. split; [exact Hds|]. split; [exact Hgh|].
    revert Hcheck. unfold github_check.
    rewrite github_defaults_Repository, github_defaults_Path.
    repeat case_decide; try discriminate; intros _.
    split; [assumption|]. split; [assumption|].
    destruct (decide (Repository c = "")) as [Hr | Hr]; [exact Hr|].
    exfalso. match goal with Hd : ¬ (_ ∧ _) |- _ => apply Hd end. by split.
  - intros (ds & gh & Hds & Hgh & Hcount & Hpath & Hroot).
    eexists. rewrite (BuildDatastoreConfig_github c ds Hds gh Hgh). f_equal. f_equal.
    apply github_check_path_empty.
    + rewrite github_defaults_Repository. intros Hempty.
      rewrite Hempty in Hcount. discriminate.
    + by rewrite github_defaults_Repository.
    + apply github_defaults_Branch_nonempty.
    + rewrite github_defaults_Path, decide_False; [exact Hpath|].
      intros [_ Hr]. contradiction.
Qed.

(** ** DatastoreConfigReady and BuildDatastoreConfig together *)

Lemma append_LF_nonempty (s : string) : s +:+ LF ≠ "".
Proof. by destruct s. Qed.

(** X7. [BuildDatastoreConfig] dereferences the datastore section without a
    check and panics when it is nil; [DatastoreConfigReady] returns false,
    silently, in that case.  So whenever [DatastoreConfigReady] has answered
    true, [BuildDatastoreConfig] returns. *)
Theorem DatastoreConfigReady_guards_BuildDatastoreConfig `{Expr} (w : World) (c : Config) :
  (∀ diagnostic,
     DatastoreConfigReady w c = Return (true, diagnostic) →
     ∃ c' e, BuildDatastoreConfig c = Return (c', e))
  ∧ (Datastore c = None →
     DatastoreConfigReady w c = Return (false, "")
     ∧ BuildDatastoreConfig c = Panic nil_dereference).
Proof.
  split.
  - intros diagnostic. unfold DatastoreConfigReady, BuildDatastoreConfig.
    destruct (Datastore c) as [ds|]; [|discriminate]. intros _.
    destruct (ConfigDatastore.Github ds); eexists _, _; reflexivity.
  - intros Hnil. unfold DatastoreConfigReady, BuildDatastoreConfig.
    by rewrite Hnil.
Qed.

(** X8. With a datastore section present, [DatastoreConfigReady] answers
    true exactly when it wrote nothing to the error stream: every refusal
    comes with a diagnostic, and no approval does. *)
Theorem DatastoreConfigReady_silent_iff_true `{Expr} (w : World) (c : Config)
    (ds : ConfigDatastore.t) (decision : bool) (diagnostic : string) :
  Datastore c = Some ds →
  DatastoreConfigReady w c = Return (decision, diagnostic) →
  decision = true ↔ diagnostic = "".
Proof.
  intros Hds. unfold DatastoreConfigReady. rewrite Hds.
  case_decide; [by intros [= <- <-]|].
  destruct (expr_Eval _ _) as [[| [] | | | | |] | err];
    try (intros Habs; discriminate Habs);
    intros [= <- <-]; split; try reflexivity; try discriminate.
  intros Habs. exfalso. by eapply append_LF_nonempty.
Qed.

Lemma DatastoreConfigReady_silent_iff_true_witness :
  @DatastoreConfigReady sample_Expr sample_World (sample_if "false")
  = Return (false, skip_message "false")
  ∧ (false = true ↔ skip_message "false" = "").
Proof.
  split; [reflexivity|].
  apply (@DatastoreConfigReady_silent_iff_true sample_Expr sample_World (sample_if "false")
           (ConfigDatastore.mk "false" None)); reflexivity.
Defined.

(** ** Load: which file, which errors, what it leaves behind *)

(** X9. Which file [Load] settles on.  An explicit name is taken as it is.
    Without one, a candidate counts only if it exists and is not a
    directory: none gives the empty name, exactly one gives that one, and
    both give the duplicate error. *)
Theorem resolve_candidates `{Files} `{Filepath} (c : Config) :
  (∀ p, p ≠ "" → resolve p c = Ok p)
  ∧ (¬ matches (wd c) ".octocov.yml" → ¬ matches (wd c) "octocov.yml" →
     resolve "" c = Ok "")
  ∧ (matches (wd c) ".octocov.yml" → ¬ matches (wd c) "octocov.yml" →
     resolve "" c = Ok ".octocov.yml")
  ∧ (¬ matches (wd c) ".octocov.yml" → matches (wd c) "octocov.yml" →
     resolve "" c = Ok "octocov.yml")
  ∧ (matches (wd c) ".octocov.yml" → matches (wd c) "octocov.yml" →
     resolve "" c = Err (duplicate_error ".octocov.yml" "octocov.yml"))
  ∧ (∀ q f, os_Stat (filepath_Join (wd c) q) = Ok f → IsDir f = true →
            ¬ matches (wd c) q).
Proof.
  unfold resolve, DefaultConfigFilePaths.
  split; [intros p Hp; by rewrite decide_False|].
  rewrite (decide_True (P := "" = "")) by reflexivity.
  repeat split.
  - intros H1 H2. by rewrite !find_default_no_match.
  - intros H1 H2. rewrite find_default_match by assumption.
    rewrite (decide_False (P := "" ≠ "")) by (intros Hne; by apply Hne).
    by rewrite find_default_no_match.
  - intros H1 H2. rewrite find_default_no_match by assumption.
    rewrite find_default_match by assumption.
    by rewrite (decide_False (P := "" ≠ "")) by (intros Hne; by apply Hne).
  - intros H1 H2. rewrite find_default_match by assumption.
    rewrite (decide_False (P := "" ≠ "")) by (intros Hne; by apply Hne).
    rewrite find_default_match by assumption.
    by rewrite (decide_True (P := ".octocov.yml" ≠ "")) by discriminate.
  - intros q f Hstat Hdir (g & Hstat' & Hdir'). congruence.
Qed.

(** X10. Errors of reading and of decoding are returned as they are.  After
    a failed read the configuration differs from the one given only in the
    config path, which is already recorded; after a failed decode [Load]
    returns what the decoder left, without defaulting coverage.path and
    without looking at the coverage section. *)
Theorem Load_propagates_errors `{Files} `{Filepath} `{Yaml}
    (p p' : string) (c : Config) :
  resolve p c = Ok p' →
  p' ≠ "" →
  (∀ e, ioutil_ReadFile (filepath_Clean (filepath_Join (wd c) p')) = Err e →
        Load p c = Return (set_path (filepath_Join (wd c) p') c, Some e))
  ∧ (∀ buf d e,
       ioutil_ReadFile (filepath_Clean (filepath_Join (wd c) p')) = Ok buf →
       unmarshal_into buf (set_path (filepath_Join (wd c) p') c) = (d, Some e) →
       Load p c = Return (d, Some e)).
Proof.
  intros Hres Hp'. split.
  - intros e Hread. unfold Load. rewrite Hres.
    rewrite (decide_False (P := p' = "")) by assumption.
    cbn [path set_path]. by rewrite Hread.
  - intros buf d e Hread Hdec. unfold Load. rewrite Hres.
    rewrite (decide_False (P := p' = "")) by assumption.
    cbn [path set_path]. by rewrite Hread, Hdec.
Qed.

Lemma Load_propagates_errors_witness :
  @Load (sample_Files []) sample_Filepath sample_Yaml "missing.yml" (New "/work")
  = Return (set_path "/work/missing.yml" (New "/work"),
            Some (errorString "open /work/missing.yml: no such file or directory")).
Proof.
  apply (proj1 (@Load_propagates_errors (sample_Files []) sample_Filepath sample_Yaml
                  "missing.yml" "missing.yml" (New "/work") eq_refl ltac:(discriminate))).
  reflexivity.
Defined.

(** X11. A coverage.path that the decoded document carries is kept: [Load]
    then returns the decoded configuration unchanged. *)
Theorem Load_keeps_coverage_path `{Files} `{Filepath} `{Yaml}
    (p p' buf : string) (c d : Config) (cov : ConfigCoverage.t) :
  resolve p c = Ok p' →
  p' ≠ "" →
  ioutil_ReadFile (filepath_Clean (filepath_Join (wd c) p')) = Ok buf →
  unmarshal_into buf (set_path (filepath_Join (wd c) p') c) = (d, None) →
  Coverage d = Some cov →
  ConfigCoverage.Path cov ≠ "" →
  Load p c = Return (d, None).
Proof.
  intros Hres Hp' Hread Hdec Hcov Hpath.
  rewrite (Load_resolved p p' buf c d cov) by assumption.
  by rewrite decide_False.
Qed.

Lemma Load_keeps_coverage_path_witness :
  @Load (sample_Files ["/work/octocov.yml"]) sample_Filepath sample_Yaml "octocov.yml"
    (sample_covered "coverage.out")
  = Return (set_path "/work/octocov.yml" (sample_covered "coverage.out"), None).
Proof.
  apply (@Load_keeps_coverage_path (sample_Files ["/work/octocov.yml"]) sample_Filepath
           sample_Yaml "octocov.yml" "octocov.yml" "" (sample_covered "coverage.out")
           (set_path "/work/octocov.yml" (sample_covered "coverage.out"))
           (ConfigCoverage.mk "coverage.out" (ConfigCoverageBadge.mk "") ""));
    try reflexivity; discriminate.
Defined.

(** X12. With an explicit name the candidates are not looked at: [Load] does
    not depend on what [os.Stat] reports, so no duplicate error can arise. *)
Theorem Load_explicit_ignores_candidates `{Filepath} `{Yaml}
    (stat1 stat2 : string → result FileInfo) (read : string → result string)
    (p : string) (c : Config) :
  p ≠ "" →
  @Load {| os_Stat := stat1; ioutil_ReadFile := read |} _ _ p c
  = @Load {| os_Stat := stat2; ioutil_ReadFile := read |} _ _ p c.
Proof.
  intros Hp. unfold Load, resolve. by rewrite !(decide_False (P := p = "")).
Qed.

Lemma Load_explicit_ignores_candidates_witness :
  @Load (sample_Files ["/work/.octocov.yml"; "/work/octocov.yml"]) sample_Filepath
    sample_Yaml "octocov.yml" (New "/work")
  = @Load {| os_Stat := λ _, Err (errorString "stat: permission denied");
             ioutil_ReadFile :=
               @ioutil_ReadFile (sample_Files ["/work/.octocov.yml"; "/work/octocov.yml"]) |}
      sample_Filepath sample_Yaml "octocov.yml" (New "/work").
Proof.
  apply (@Load_explicit_ignores_candidates sample_Filepath sample_Yaml). discriminate.
Defined.

(** X13. A coverage.path that [Load] fills in is the directory [Root]
    reports afterwards: the working directory when no file was found, the
    directory of the config file when one was loaded (its joined path being
    non-empty). *)
Theorem Load_default_is_Root `{Files} `{Filepath} `{Yaml} :
  (∀ (c : Config) (cov : ConfigCoverage.t),
     Coverage c = Some cov →
     Loaded c = false →
     resolve "" c = Ok "" →
     ∃ c' cov', Load "" c = Return (c', None)
                ∧ Coverage c' = Some cov'
                ∧ ConfigCoverage.Path cov' = Root c')
  ∧ (∀ (p p' buf : string) (c d : Config) (cov : ConfigCoverage.t),
       resolve p c = Ok p' →
       p' ≠ "" →
       filepath_Join (wd c) p' ≠ "" →
       ioutil_ReadFile (filepath_Clean (filepath_Join (wd c) p')) = Ok buf →
       unmarshal_into buf (set_path (filepath_Join (wd c) p') c) = (d, None) →
       Coverage d = Some cov →
       ConfigCoverage.Path cov = "" →
       ∃ c' cov', Load p c = Return (c', None)
                  ∧ Coverage c' = Some cov'
                  ∧ ConfigCoverage.Path cov' = Root c').
Proof.
  split.
  - intros c cov Hcov Hloaded Hres.
    exists (set_Coverage (Some (ConfigCoverage.set_Path (wd c) cov)) c),
           (ConfigCoverage.set_Path (wd c) cov).
    split; [|split; [reflexivity|]].
    + unfold Load. rewrite Hres. rewrite (decide_True (P := "" = "")) by reflexivity.
      by rewrite Hcov.
    + unfold Root, Loaded in *. cbn [path set_Coverage].
      apply bool_decide_eq_false in Hloaded.
      by rewrite decide_False.
  - intros p p' buf c d cov Hres Hp' Hjoin Hread Hdec Hcov Hpath.
    destruct (unmarshal_into_path _ _ _ _ Hdec) as [Hpd _]. cbn [path set_path] in Hpd.
    exists (set_Coverage (Some (ConfigCoverage.set_Path (filepath_Dir (path d)) cov)) d),
           (ConfigCoverage.set_Path (filepath_Dir (path d)) cov).
    split; [|split; [reflexivity|]].
    + rewrite (Load_resolved p p' buf c d cov) by assumption. by rewrite decide_True.
    + unfold Root. cbn [path set_Coverage ConfigCoverage.Path ConfigCoverage.set_Path].
      rewrite decide_True; [reflexivity|]. by rewrite Hpd.
Qed.

(** X14. [Load] dereferences the coverage section without a check.  It
    returns, possibly with an error, whenever the configuration has a
    coverage section and the decoder does not take it away; without a
    coverage section and without a file it panics. *)
Theorem Load_returns_with_coverage `{Files} `{Filepath} `{Yaml} (p : string) (c : Config) :
  (Coverage c ≠ None →
   (∀ buf c0 d, yaml_Unmarshal buf c0 = (d, None) → Coverage c0 ≠ None → Coverage d ≠ None) →
   ∃ c' e, Load p c = Return (c', e))
  ∧ (Coverage c = None → resolve p c = Ok "" → Load p c = Panic nil_dereference).
Proof.
  split.
  - intros Hcov Hdecoder. unfold Load.
    destruct (resolve p c) as [p'|e]; [|by eexists _, _].
    case_decide.
    { destruct (Coverage c); [by eexists _, _ | contradiction]. }
    destruct (ioutil_ReadFile _) as [buf|e]; [|by eexists _, _].
    unfold unmarshal_into.
    destruct (yaml_Unmarshal buf _) as [d [e|]] eqn:Hd; [by eexists _, _|].
    apply Hdecoder in Hd; [|exact Hcov].
    cbn [Coverage set_wd set_path].
    destruct (Coverage d) as [cov|]; [|contradiction].
    case_decide; by eexists _, _.
  - intros Hcov Hres. unfold Load. rewrite Hres.
    rewrite (decide_True (P := "" = "")) by reflexivity. by rewrite Hcov.
Qed.

(** ** Build: what it fills in and what it leaves alone *)

(** X15. After [Build] the root repository is empty exactly when the given
    one expands to nothing and GITHUB_REPOSITORY is unset or empty; a given
    repository that expands to something is never replaced by the
    environment's. *)
Theorem Build_repository_empty_iff (env : gmap string string) (c : Config) :
  (Repository (Build env c) = ""
   ↔ os_ExpandEnv env (Repository c) = "" ∧ os_Getenv env "GITHUB_REPOSITORY" = "")
  ∧ (os_ExpandEnv env (Repository c) ≠ "" →
     Repository (Build env c) = os_ExpandEnv env (Repository c)).
Proof.
  rewrite Build_Repository. split.
  - case_decide as Hexp; split.
    + intros Hget. by split.
    + by intros [_ Hget].
    + intros Habs. contradiction.
    + intros [Habs _]. contradiction.
  - intros Hexp. by rewrite decide_False.
Qed.

Lemma CodeToTestRatioReady_non_nil (r : ConfigCodeToTestRatio.t) :
  length (default [] (non_nil (ConfigCodeToTestRatio.Test r)))
  = length (default [] (ConfigCodeToTestRatio.Test r)).
Proof. by destruct (ConfigCodeToTestRatio.Test r). Qed.

(** X16. [Build] does not change any decision taken from the configuration:
    the datastore gate (the [if] expression is not expanded), the acceptance
    check, [Loaded], and the readiness of the code-to-test ratio and of its
    badge (whose path is not expanded either). *)
Theorem Build_keeps_decisions `{Expr} `{Strconv} (env : gmap string string)
    (w : World) (r : Report) (c : Config) :
  DatastoreConfigReady w (Build env c) = DatastoreConfigReady w c
  ∧ Accepptable r (Build env c) = Accepptable r c
  ∧ Loaded (Build env c) = Loaded c
  ∧ CodeToTestRatioReady (Build env c) = CodeToTestRatioReady c
  ∧ CodeToTestRatioBadgeConfigReady (Build env c) = CodeToTestRatioBadgeConfigReady c.
Proof.
  assert (CodeToTestRatioReady (Build env c) = CodeToTestRatioReady c) as Hready.
  { unfold CodeToTestRatioReady. rewrite Build_CodeToTestRatio.
    destruct (CodeToTestRatio c) as [ratio|]; [|reflexivity].
    cbn. by rewrite CodeToTestRatioReady_non_nil. }
  repeat split.
  - unfold DatastoreConfigReady. rewrite Build_Datastore.
    by destruct (Datastore c) as [[cond gh]|].
  - unfold Accepptable. rewrite Build_Coverage.
    by destruct (Coverage c) as [[p badge acceptable]|].
  - unfold Loaded. by rewrite (proj2 (Build_wd_path env c)).
  - exact Hready.
  - unfold CodeToTestRatioBadgeConfigReady. rewrite Hready, Build_CodeToTestRatio.
    by destruct (CodeToTestRatio c) as [ratio|].
Qed.

(** X17. When the code-to-test section is present, [Build] leaves its code
    and test sequences non-nil with the elements they had (none for a nil
    one), and its badge untouched. *)
Theorem Build_sequences_non_nil (env : gmap string string) (c : Config)
    (r : ConfigCodeToTestRatio.t) :
  CodeToTestRatio c = Some r →
  CodeToTestRatio (Build env c)
  = Some (ConfigCodeToTestRatio.mk
            (Some (default [] (ConfigCodeToTestRatio.Code r)))
            (Some (default [] (ConfigCodeToTestRatio.Test r)))
            (ConfigCodeToTestRatio.Badge r)).
Proof.
  intros Hr. rewrite Build_CodeToTestRatio, Hr. cbn.
  by destruct (ConfigCodeToTestRatio.Code r), (ConfigCodeToTestRatio.Test r).
Qed.

Lemma Build_sequences_non_nil_witness :
  CodeToTestRatio (Build sample_plain_env sample_expandable)
  = Some (ConfigCodeToTestRatio.mk (Some []) (Some ["**/*_test.go"])
            (ConfigCodeToTestRatioBadge.mk "")).
Proof.
  apply (Build_sequences_non_nil sample_plain_env sample_expandable
           (ConfigCodeToTestRatio.mk None (Some ["**/*_test.go"])
              (ConfigCodeToTestRatioBadge.mk ""))).
  reflexivity.
Defined.

(** X18. A configuration that names its repository, holds no [$] in any
    expanded field and has no nil code or test sequence is returned by
    [Build] as it is, whatever the environment. *)
Theorem Build_clean_unchanged (env : gmap string string) (c : Config) :
  Repository c ≠ "" →
  Forall (λ s, strings_Count s "$" = 0) (expanded_fields c) →
  (∀ r, CodeToTestRatio c = Some r →
        ConfigCodeToTestRatio.Code r ≠ None ∧ ConfigCodeToTestRatio.Test r ≠ None) →
  Build env c = c.
Proof.
  intros Hrepo Hclean Hseq.
  assert (Forall (λ s, os_ExpandEnv env s = s) (expanded_fields c)) as Hfix.
  { eapply Forall_impl; [exact Hclean|]. intros s Hs. by apply os_Expand_no_dollar. }
  clear Hclean. revert Hfix. unfold expanded_fields.
  rewrite !Forall_app, Forall_singleton. intros (Hr & Hds & Hcov & Hce).
  pose proof (Build_Repository env c) as B1.
  pose proof (Build_Coverage env c) as B2.
  pose proof (Build_CodeToTestRatio env c) as B3.
  pose proof (Build_Datastore env c) as B4.
  pose proof (Build_Central env c) as B5.
  destruct (Build_wd_path env c) as [B6 B7].
  unfold expand_github, expand_central in *.
  set (expand := os_ExpandEnv env) in *. clearbody expand.
  apply Config_eq; try assumption.
  - rewrite B1, Hr. by rewrite decide_False.
  - rewrite B2. revert Hcov.
    destruct (Coverage c) as [[p [badge] acceptable]|]; [|reflexivity].
    cbn. rewrite Forall_singleton. by intros ->.
  - rewrite B3.
    destruct (CodeToTestRatio c) as [[code test badge]|] eqn:Hctr; [|reflexivity].
    destruct (Hseq _ eq_refl) as [Hcode Htest]. cbn in *.
    by destruct code, test.
  - rewrite B4. revert Hds.
    destruct (Datastore c) as [[cond [[repo branch p]|]]|]; try reflexivity.
    cbn. rewrite !Forall_cons. by intros (-> & -> & -> & _).
  - rewrite B5. revert Hce.
    destruct (Central c) as [[enable reports badges root]|]; [|reflexivity].
    cbn. rewrite !Forall_cons. by intros (-> & -> & -> & _).
Qed.

Lemma Build_clean_unchanged_witness :
  Build sample_env (sample_github "acme/reports" "main" "reports/report.json")
  = sample_github "acme/reports" "main" "reports/report.json".
Proof.
  apply (Build_clean_unchanged sample_env
           (sample_github "acme/reports" "main" "reports/report.json")).
  - discriminate.
  - repeat constructor.
  - intros r Hr. discriminate Hr.
Defined.

(** ** Build followed by BuildDatastoreConfig *)

Lemma github_defaults_Path_nonempty (root : string) (gh : ConfigDatastoreGithub.t) :
  root ≠ "" → ConfigDatastoreGithub.Path (github_defaults root gh) ≠ "".
Proof.
  intros Hroot. rewrite github_defaults_Path.
  case_decide as Hd; [apply default_report_path_nonempty|].
  intros Hp. apply Hd. by split.
Qed.

(** X19. When GITHUB_REPOSITORY is set, validation after [Build] never
    fails on the path: a github path that expands to nothing becomes
    "reports/<repository>/report.json", built from the root repository as
    [Build] left it, be it the expanded one or the environment's. *)
Theorem Build_then_BuildDatastoreConfig (env : gmap string string) (c : Config) :
  os_Getenv env "GITHUB_REPOSITORY" ≠ "" →
  (∀ c', BuildDatastoreConfig (Build env c)
         ≠ Return (c', Some (errors_New "datastore.github.path not set")))
  ∧ (∀ ds gh,
       Datastore c = Some ds →
       ConfigDatastore.Github ds = Some gh →
       os_ExpandEnv env (ConfigDatastoreGithub.Path gh) = "" →
       ∃ c' e gh',
         BuildDatastoreConfig (Build env c) = Return (c', e)
         ∧ github_of c' = Some gh'
         ∧ ConfigDatastoreGithub.Path gh'
           = "reports/" +:+ Repository (Build env c) +:+ "/report.json").
Proof.
  intros Hget.
  assert (Repository (Build env c) ≠ "") as Hroot.
  { rewrite Build_Repository. by case_decide. }
  split.
  - intros c' Hrun.
    destruct (BuildDatastoreConfig_inv _ _ _ Hrun)
      as (ds & Hds & [(_ & _ & Habs) | (gh & Hgh & _ & Hcheck)]); [discriminate|].
    pose proof (github_defaults_Path_nonempty _ gh Hroot) as Hpath.
    revert Hcheck. unfold github_check.
    repeat case_decide; try discriminate. contradiction.
  - intros ds gh Hds Hgh Hpath.
    pose proof (Build_Datastore env c) as Hbuilt. rewrite Hds in Hbuilt. cbn in Hbuilt.
    rewrite Hgh in Hbuilt. cbn in Hbuilt.
    eexists _, _, _.
    split; [eapply BuildDatastoreConfig_github; [exact Hbuilt | reflexivity]|].
    split; [reflexivity|].
    rewrite github_defaults_Path. cbn [expand_github ConfigDatastoreGithub.Path].
    rewrite Hpath. by rewrite decide_True.
Qed.

Lemma Build_then_BuildDatastoreConfig_witness :
  ∃ c' e gh',
    BuildDatastoreConfig (Build sample_plain_env sample_expandable) = Return (c', e)
    ∧ github_of c' = Some gh'
    ∧ ConfigDatastoreGithub.Path gh' = "reports/acme/widgets/report.json".
Proof.
  destruct (Build_then_BuildDatastoreConfig sample_plain_env sample_expandable)
    as [_ Hpath]; [discriminate|].
  exact (Hpath (ConfigDatastore.mk "" (Some (ConfigDatastoreGithub.mk "acme/reports" "" "")))
           (ConfigDatastoreGithub.mk "acme/reports" "" "") eq_refl eq_refl eq_refl).
Defined.

(** ** The colours and the acceptance check at the edges *)

Lemma cascade_monotone (b1 b2 b3 b4 x y : float) :
  (x <=? y)%float = true →
  (band_rank (if (b1 <=? x)%float then green
              else if (b2 <=? x)%float then yellowgreen
              else if (b3 <=? x)%float then yellow
              else if (b4 <=? x)%float then orange
              else red)
   ≤ band_rank (if (b1 <=? y)%float then green
                else if (b2 <=? y)%float then yellowgreen
                else if (b3 <=? y)%float then yellow
                else if (b4 <=? y)%float then orange
                else red))%nat.
Proof.
  intros Hxy.
  pose proof (λ b Hb, leb_chain x b y Hb Hxy) as Hup.
  pose proof (Hup b1) as H1. pose proof (Hup b2) as H2.
  pose proof (Hup b3) as H3. pose proof (Hup b4) as H4. clear Hup.
  destruct (b1 <=? x)%float; [rewrite (H1 eq_refl); reflexivity|].
  destruct (b2 <=? x)%float;
    [rewrite (H2 eq_refl); destruct (b1 <=? y)%float; vm_compute; lia|].
  destruct (b3 <=? x)%float;
    [rewrite (H3 eq_refl); destruct (b1 <=? y)%float, (b2 <=? y)%float; vm_compute; lia|].
  destruct (b4 <=? x)%float;
    [rewrite (H4 eq_refl);
     destruct (b1 <=? y)%float, (b2 <=? y)%float, (b3 <=? y)%float; vm_compute; lia|].
  change (band_rank red) with 0. lia.
Qed.

(** X20. Both colour functions are monotone: a value at least as large
    never gets a worse colour, in the order red, orange, yellow,
    yellowgreen, green. *)
Theorem colours_monotone (x y : float) :
  (x <=? y)%float = true →
  (band_rank (CoverageColor x) ≤ band_rank (CoverageColor y))%nat
  ∧ (band_rank (CodeToTestRatioColor x) ≤ band_rank (CodeToTestRatioColor y))%nat.
Proof.
  intros Hxy. split; by apply cascade_monotone.
Qed.

Lemma colours_monotone_witness :
  (band_rank (CoverageColor 59.5) ≤ band_rank (CoverageColor 60))%nat
  ∧ (band_rank (CodeToTestRatioColor 59.5) ≤ band_rank (CodeToTestRatioColor 60))%nat.
Proof. apply (colours_monotone 59.5 60). reflexivity. Defined.

Lemma ltb_nan (x y : float) :
  Prim2SF x = S754_nan ∨ Prim2SF y = S754_nan → (x <? y)%float = false.
Proof.
  rewrite ltb_spec. unfold SFltb.
  intros [-> | ->]; [reflexivity|]. by destruct (Prim2SF x).
Qed.

(** X21. A coverage that is not a number passes the acceptance check, and
    so does every coverage against a threshold that parses to not-a-number:
    only a comparison that holds makes the check fail. *)
Theorem Accepptable_nan_passes `{Strconv} (r : Report) (c : Config)
    (cov : ConfigCoverage.t) (a : float) :
  Coverage c = Some cov →
  strconv_ParseFloat (strings_TrimSuffix (ConfigCoverage.Acceptable cov) "%") = Ok a →
  Prim2SF (CoveragePercent r) = S754_nan ∨ Prim2SF a = S754_nan →
  Accepptable r c = Return None.
Proof.
  intros Hcov Hparse Hnan.
  destruct (decide (ConfigCoverage.Acceptable cov = "")) as [Hacc | Hacc].
  - by eapply Accepptable_unset.
  - rewrite (Accepptable_parsed r c cov Hcov a Hacc Hparse).
    by rewrite (ltb_nan _ _ Hnan).
Qed.

Lemma Accepptable_nan_passes_witness :
  @Accepptable sample_Strconv (mkReport nan) (sample_acceptable "75%") = Return None.
Proof.
  apply (@Accepptable_nan_passes sample_Strconv (mkReport nan) (sample_acceptable "75%")
           (ConfigCoverage.mk "" (ConfigCoverageBadge.mk "") "75%") 75%float);
    [reflexivity | reflexivity | left; reflexivity].
Defined.

(** ** The ratio badge *)

(** X22. [CodeToTestRatioBadgeConfigReady] never panics, although it reads
    through the code-to-test section: the readiness test in front guards the
    dereference.  It answers true exactly when the section is present, its
    test sequence has an element and its badge path is non-empty. *)
Theorem CodeToTestRatioBadgeConfigReady_safe (c : Config) :
  ∃ ready,
    CodeToTestRatioBadgeConfigReady c = Return ready
    ∧ (ready = true
       ↔ ∃ r, CodeToTestRatio c = Some r
              ∧ default [] (ConfigCodeToTestRatio.Test r) ≠ []
              ∧ ConfigCodeToTestRatioBadge.Path (ConfigCodeToTestRatio.Badge r) ≠ "").
Proof.
  unfold CodeToTestRatioBadgeConfigReady, CodeToTestRatioReady.
  destruct (CodeToTestRatio c) as [r|].
  - destruct (default [] (ConfigCodeToTestRatio.Test r)) as [|t ts] eqn:Htest; cbn.
    + exists false. split; [reflexivity|]. split; [discriminate|].
      intros (r' & [= <-] & Hne & _). by rewrite Htest in Hne.
    + eexists. split; [reflexivity|]. rewrite bool_decide_eq_true. split.
      * intros Hbadge. exists r. rewrite Htest. by repeat split.
      * by intros (r' & [= <-] & _ & Hbadge).
  - exists false. split; [reflexivity|]. split; [discriminate|].
    intros (r & Habs & _). discriminate.
Qed.
